(** * nba-betting-bot: the edge-detection pipeline of [bot.py]

    A shallow embedding of the rating store, the model estimator, the market
    matcher, the edge classifier and the report builder of [bot.py], and the
    properties of them that the specification states.

    Numbers.  Python's [float] is a binary64 number.  Where the code
    computes with numbers (the classifier and the estimator), module [IEEE]
    embeds it on Rocq's binary64 numbers, with the handler of the estimator
    and with [math.exp] as a parameter.  Where the code only passes numbers
    on (prices, the rating store, the report), they are embedded as reals;
    [classify_edge] and [model_probability_of] outside [IEEE] are the same
    formulas on exact reals, without rounding and overflow.

    Strings.  A string is its sequence of bytes; [lower] and [strip] act on
    the ASCII letters and the ASCII white space.

    Exceptions.  [get_polymarket_probs] wraps its body in [try/except
    Exception]; the body is embedded in an error monad and the handler is
    the last step of the function.

    Third-party code.  [fuzz.partial_ratio] (fuzzywuzzy), [math.exp],
    [float] applied to a string, the clock and the [format] of a number are
    not code of the repository: the functions that use them take them as
    section variables. *)

From Stdlib Require Import ZArith Reals Lra Lia String Ascii List Bool Floats.
From stdpp Require Import gmap strings list.

Local Open Scope Z_scope.

(* Decimal constants of the source stand for the nearest binary64 numbers. *)
Set Warnings "-inexact-float".

(** ** Python primitives used by [bot.py] *)

Module Py.

(** Exceptions the embedded code can raise. *)
Inductive exn : Type :=
| IndexError      (* [prices[i]] out of range *)
| ValueError      (* [float(s)] on a string that is no number *)
| TypeError       (* [float(None)] *)
| OverflowError   (* [math.exp] of a large number *)
| ZeroDivisionError
| RequestError.  (* [requests.get], [raise_for_status], [response.json] *)

(** A computation that returns a value or raises. *)
Definition M (A : Type) : Type := exn + A.

Definition ret {A} (x : A) : M A := inr x.
Definition raise {A} (e : exn) : M A := inl e.
Definition bind {A B} (m : M A) (k : A -> M B) : M B :=
  match m with
  | inl e => inl e
  | inr x => k x
  end.

(** [max(a, b)] keeps [a] unless [b > a]; [min(a, b)] keeps [a] unless
    [b < a]. *)
Definition max (a b : R) : R := if Rlt_dec a b then b else a.
Definition min (a b : R) : R := if Rlt_dec b a then b else a.

(** [str.lower], on the ASCII letters. *)
Definition lower_ascii (c : ascii) : ascii :=
  let n := nat_of_ascii c in
  if ((65 <=? n)%nat && (n <=? 90)%nat)%bool then ascii_of_nat (n + 32) else c.

Fixpoint lower (s : string) : string :=
  match s with
  | EmptyString => EmptyString
  | String c s' => String (lower_ascii c) (lower s')
  end.

(** [s.replace(old, new)] for a non-empty [old]: scan from the left; where
    [old] starts, emit [new] and skip the rest of that occurrence. *)
Fixpoint replace_from (old new : string) (skip : nat) (s : string) : string :=
  match s with
  | EmptyString => EmptyString
  | String c s' =>
      match skip with
      | S k => replace_from old new k s'
      | O =>
          if String.prefix old s
          then String.append new (replace_from old new (String.length old - 1) s')
          else String c (replace_from old new O s')
      end
  end.

Definition replace (old new s : string) : string := replace_from old new O s.

(** [str.strip()]: ASCII white space is removed at both ends. *)
Definition is_space (c : ascii) : bool :=
  let n := nat_of_ascii c in
  (((9 <=? n)%nat && (n <=? 13)%nat) || ((28 <=? n)%nat && (n <=? 32)%nat))%bool.

Fixpoint lstrip (s : string) : string :=
  match s with
  | EmptyString => EmptyString
  | String c s' => if is_space c then lstrip s' else s
  end.

Fixpoint rstrip (s : string) : string :=
  match s with
  | EmptyString => EmptyString
  | String c s' =>
      match rstrip s' with
      | EmptyString => if is_space c then EmptyString else String c EmptyString
      | r => String c r
      end
  end.

Definition strip (s : string) : string := rstrip (lstrip s).

(** [sep.join(lines)]. *)
Fixpoint join (sep : string) (lines : list string) : string :=
  match lines with
  | [] => EmptyString
  | [l] => l
  | l :: rest => String.append l (String.append sep (join sep rest))
  end.

(** [enumerate(l)]. *)
Definition enumerate {A} (l : list A) : list (nat * A) :=
  combine (seq 0 (length l)) l.

(** [l[i]]: a negative index counts from the end, an index out of range
    raises [IndexError]. *)
Definition getitem {A} (l : list A) (i : Z) : M A :=
  let j := if i <? 0 then Z.of_nat (length l) + i else i in
  if j <? 0 then raise IndexError
  else match l !! Z.to_nat j with
       | Some x => ret x
       | None => raise IndexError
       end.

End Py.

Notation "'do' x <- m ; k" := (Py.bind m (fun x => k))
  (at level 10, x name, m at level 100, k at level 200).

(** ** Rating store: [get_team_stats] *)

Record Rating : Type := { off_rating : R; def_rating : R }.

Definition mock_stats : gmap Z Rating :=
  <[14 := {| off_rating := 115.2; def_rating := 108.7 |}]>   (* Lakers *)
  (<[2 := {| off_rating := 118.5; def_rating := 110.2 |}]>   (* Celtics *)
  (<[17 := {| off_rating := 112.8; def_rating := 109.1 |}]>  (* Knicks *)
  (<[15 := {| off_rating := 110.3; def_rating := 107.8 |}]>  (* Heat *)
   ∅))).

Definition default_stats : Rating :=
  {| off_rating := 110.0; def_rating := 110.0 |}.

Definition get_team_stats (team_id : Z) : Rating :=
  match mock_stats !! team_id with
  | Some stats => stats
  | None => default_stats
  end.

(** ** Model estimator: [model_probability] *)

(** The body of [model_probability] after the two look-ups, on exact
    reals: no rounding, and no step that raises, so the handler of the
    function is not part of it.  The code's own arithmetic, with the
    handler, is [IEEE.model_probability_of]. *)
Definition model_probability_of (home_stats away_stats : Rating) : R * R :=
  let home_net := (off_rating home_stats - def_rating home_stats)%R in
  let away_net := (off_rating away_stats - def_rating away_stats)%R in
  let diff := (home_net - away_net)%R in
  let prob_home := (1 / (1 + exp (- diff / 10)))%R in
  let prob_home := Py.max 0 (Py.min 1 prob_home) in
  let prob_away := (1 - prob_home)%R in
  (prob_home, prob_away).

Definition model_probability (home_team_id away_team_id : Z) : R * R :=
  model_probability_of (get_team_stats home_team_id) (get_team_stats away_team_id).

(** ** Edge classifier: [classify_edge] *)

Inductive label : Type := GOOD_BET | SMALL_EDGE | NO_BET.

Definition label_text (l : label) : string :=
  match l with
  | GOOD_BET => "GOOD BET"
  | SMALL_EDGE => "SMALL EDGE"
  | NO_BET => "NO BET"
  end.

Definition label_emoji (l : label) : string :=
  match l with
  | GOOD_BET => "üí°"
  | SMALL_EDGE => "üìà"
  | NO_BET => "üß±"
  end.

(** Returns the label (its text and marker are [label_text] and
    [label_emoji]) and the edge, on exact reals.  The code's own arithmetic
    is [IEEE.classify_edge]. *)
Definition classify_edge (model_prob market_prob : R) : label * R :=
  let edge := (model_prob - market_prob)%R in
  if Rge_dec edge 0.07 then (GOOD_BET, edge)
  else if Rge_dec edge 0.03 then (SMALL_EDGE, edge)
  else (NO_BET, edge).

(** The classifier and the estimator on binary64 numbers, the arithmetic
    Python runs them with: every operation rounds, and the constants are
    the nearest binary64 numbers. *)
Module IEEE.

#[warnings="-inexact-float"]
Definition classify_edge (model_prob market_prob : float) : label * float :=
  let edge := PrimFloat.sub model_prob market_prob in
  if PrimFloat.leb 0.07%float edge then (GOOD_BET, edge)
  else if PrimFloat.leb 0.03%float edge then (SMALL_EDGE, edge)
  else (NO_BET, edge).

(** [max(a, b)] keeps [a] unless [b > a]; [min(a, b)] keeps [a] unless
    [b < a]; a comparison with NaN is false. *)
Definition max (a b : float) : float := if PrimFloat.ltb a b then b else a.
Definition min (a b : float) : float := if PrimFloat.ltb b a then b else a.

(** [x / y]: Python raises [ZeroDivisionError] when [y] is zero. *)
Definition truediv (x y : float) : Py.M float :=
  if PrimFloat.eqb y 0 then Py.raise Py.ZeroDivisionError
  else Py.ret (PrimFloat.div x y).

Record Rating : Type := { off_rating : float; def_rating : float }.

#[warnings="-inexact-float"]
Definition mock_stats : gmap Z Rating :=
  <[14 := {| off_rating := 115.2; def_rating := 108.7 |}]>   (* Lakers *)
  (<[2 := {| off_rating := 118.5; def_rating := 110.2 |}]>   (* Celtics *)
  (<[17 := {| off_rating := 112.8; def_rating := 109.1 |}]>  (* Knicks *)
  (<[15 := {| off_rating := 110.3; def_rating := 107.8 |}]>  (* Heat *)
   ∅))).

Definition default_stats : Rating :=
  {| off_rating := 110.0; def_rating := 110.0 |}.

Definition get_team_stats (team_id : Z) : Rating :=
  match mock_stats !! team_id with
  | Some stats => stats
  | None => default_stats
  end.

Section Estimator.

(** [math.exp]: the value, or the [OverflowError] it raises. *)
Variable math_exp : float -> Py.M float.

(** The body of [model_probability] after the two look-ups, inside its
    [try], and the handler.  The integers 0, 1 and 10 of the source are
    the binary64 numbers they convert to; where [min] or [max] returns the
    integer 1 or 0 itself, it is the equal binary64 number here. *)
Definition model_probability_of (home_stats away_stats : Rating) : float * float :=
  let body :=
    let home_net := PrimFloat.sub (off_rating home_stats) (def_rating home_stats) in
    let away_net := PrimFloat.sub (off_rating away_stats) (def_rating away_stats) in
    let diff := PrimFloat.sub home_net away_net in
    do x <- truediv (PrimFloat.opp diff) 10;
    do e <- math_exp x;
    do prob_home <- truediv 1 (PrimFloat.add 1 e);
    let prob_home := max 0 (min 1 prob_home) in
    let prob_away := PrimFloat.sub 1 prob_home in
    Py.ret (prob_home, prob_away) in
  match body with
  | inr probs => probs
  | inl _ => (0.5, 0.5)%float
  end.

Definition model_probability (home_team_id away_team_id : Z) : float * float :=
  model_probability_of (get_team_stats home_team_id) (get_team_stats away_team_id).

End Estimator.

(** Net rating, difference of net ratings and the argument of [math.exp],
    as the body computes them. *)
Definition net (r : Rating) : float :=
  PrimFloat.sub (off_rating r) (def_rating r).

Definition net_diff (home_stats away_stats : Rating) : float :=
  PrimFloat.sub (net home_stats) (net away_stats).

Definition exp_argument (home_stats away_stats : Rating) : float :=
  PrimFloat.div (PrimFloat.opp (net_diff home_stats away_stats)) 10.

End IEEE.

(** ** Market matcher: [get_polymarket_probs] *)

(** An entry of a quote's [prices] list, as the JSON response has it: a
    number, a string or [null]. *)
Inductive price : Type :=
| PNull
| PNum (x : R)
| PStr (s : string).

(** A record of the response's [data] list.  [question] is [None] when the
    key is absent; an absent [outcomes] or [prices] is the empty list, the
    default of [market.get]. *)
Record MarketQuote : Type := {
  question : option string;
  outcomes : list string;
  prices : list price
}.

(** Truth value of a price: [None], [0] and the empty string are false. *)
Definition truthy (p : price) : bool :=
  match p with
  | PNull => false
  | PNum x => if Req_dec_T x 0 then false else true
  | PStr s => negb (String.eqb s EmptyString)
  end.

Section Matcher.

(** [fuzz.partial_ratio], a score from 0 to 100. *)
Variable partial_ratio : string -> string -> Z.

(** [float(s)] for a string [s]; [None] where Python raises [ValueError]. *)
Variable float_of_string : string -> option R.

Definition float (p : price) : Py.M R :=
  match p with
  | PNum x => Py.ret x
  | PStr s =>
      match float_of_string s with
      | Some x => Py.ret x
      | None => Py.raise Py.ValueError
      end
  | PNull => Py.raise Py.TypeError
  end.

(** [float(prices[i]) if prices[i] else 0.5] *)
Definition price_at (prices : list price) (i : Z) : Py.M R :=
  do p <- Py.getitem prices i;
  if truthy p then float p else Py.ret 0.5%R.

(** [home_variations] and [away_variations] *)
Definition variations (team : string) : list string :=
  [ Py.lower team;
    Py.lower (Py.replace " " "" team);
    Py.lower (Py.replace " " "-" team);
    Py.lower (Py.replace " " "_" team) ].

Definition title_clean (title : string) : string :=
  Py.strip (Py.replace "win vs" "vs" (Py.replace "will the" "" title)).

(** [any(fuzz.partial_ratio(var, title_clean) > 75 for var in variations)] *)
Definition found (vars : list string) (title : string) : bool :=
  existsb (fun var => 75 <? partial_ratio var title) vars.

(** The test [home_found and away_found] of a market, false for a market
    without a [question]. *)
Definition is_candidate (home_team away_team : string) (market : MarketQuote) : bool :=
  match question market with
  | None => false
  | Some q =>
      let title := Py.lower q in
      let home_variations := variations home_team in
      let away_variations := variations away_team in
      let title_clean := title_clean title in
      let home_found := found home_variations title_clean in
      let away_found := found away_variations title_clean in
      home_found && away_found
  end.

(** One turn of the loop over [enumerate(outcomes)], on the pair
    [(home_outcome_idx, away_outcome_idx)]. *)
Definition resolve_step (home_team away_team : string)
    (idx : Z * Z) (entry : nat * string) : Z * Z :=
  let '(home_outcome_idx, away_outcome_idx) := idx in
  let '(i, outcome) := entry in
  let outcome_text := Py.lower outcome in
  if 75 <? partial_ratio (Py.lower home_team) outcome_text
  then (Z.of_nat i, away_outcome_idx)
  else if 75 <? partial_ratio (Py.lower away_team) outcome_text
  then (home_outcome_idx, Z.of_nat i)
  else (home_outcome_idx, away_outcome_idx).

Definition resolve_outcomes (home_team away_team : string)
    (outcomes : list string) : Z * Z :=
  fold_left (resolve_step home_team away_team) (Py.enumerate outcomes) (-1, -1).

(** The body of the loop over the markets: [Some] pair when the body
    returns, [None] when the loop goes on to the next market. *)
Definition market_step (home_team away_team : string) (market : MarketQuote)
  : Py.M (option (R * R)) :=
  if is_candidate home_team away_team market then
    let outcomes := outcomes market in
    let prices := prices market in
    if (2 <=? length outcomes)%nat && (2 <=? length prices)%nat then
      let '(home_outcome_idx, away_outcome_idx) :=
        resolve_outcomes home_team away_team outcomes in
      if negb (home_outcome_idx =? -1) && negb (away_outcome_idx =? -1) then
        do home_prob <- price_at prices home_outcome_idx;
        do away_prob <- price_at prices away_outcome_idx;
        Py.ret (Some (home_prob, away_prob))
      else Py.ret None
    else Py.ret None
  else Py.ret None.

(** The loop over [markets.get('data', [])] and the default after it. *)
Fixpoint scan_markets (home_team away_team : string) (markets : list MarketQuote)
  : Py.M (R * R) :=
  match markets with
  | [] => Py.ret (0.5, 0.5)%R
  | market :: rest =>
      do r <- market_step home_team away_team market;
      match r with
      | Some probs => Py.ret probs
      | None => scan_markets home_team away_team rest
      end
  end.

(** [response] is what the request yields: the [data] list of the
    response, or the exception of the request.  The handler turns every
    exception into the neutral pair. *)
Definition get_polymarket_probs (home_team away_team : string)
    (response : Py.M (list MarketQuote)) : R * R :=
  match (do markets <- response; scan_markets home_team away_team markets) with
  | inr probs => probs
  | inl _ => (0.5, 0.5)%R
  end.

End Matcher.

(** ** Report builder and entry point: [build_report], [main] *)

Record Game : Type := {
  game_id : string;
  date : string;
  home_team : string;
  away_team : string;
  home_team_id : Z;
  away_team_id : Z
}.

(** The list [get_today_games] returns, [today] being the date string. *)
Definition get_today_games (today : string) : list Game :=
  [ {| game_id := "1"; date := today;
       home_team := "Los Angeles Lakers"; away_team := "Boston Celtics";
       home_team_id := 14; away_team_id := 2 |};
    {| game_id := "2"; date := today;
       home_team := "New York Knicks"; away_team := "Miami Heat";
       home_team_id := 17; away_team_id := 15 |};
    {| game_id := "3"; date := today;
       home_team := "Golden State Warriors"; away_team := "Phoenix Suns";
       home_team_id := 11; away_team_id := 23 |} ].

Definition nl : string := String (ascii_of_nat 10) EmptyString.

Definition report_title : string := "üèÄ NBA Value Betting Report".

Definition no_games_message : string :=
  report_title +:+ nl +:+ nl +:+ "No games scheduled for today.".

Section Report.

Variable partial_ratio : string -> string -> Z.
Variable float_of_string : string -> option R.

(** [datetime.now().strftime('%Y-%m-%d %H:%M:%S UTC')] *)
Variable now : string.

(** The formats [{x:.1%}] and [{x:.1f}] of a number. *)
Variable format_pct : R -> string.
Variable format_f1 : R -> string.

(** What the [n]-th request of the report yields. *)
Variable fetch : nat -> Py.M (list MarketQuote).

(** The lines one game appends to the report; [n] is its position. *)
Definition game_lines (entry : nat * Game) : list string :=
  let '(n, game) := entry in
  let home_team := home_team game in
  let away_team := away_team game in
  let home_team_id := home_team_id game in
  let away_team_id := away_team_id game in
  let '(pm_home_prob, pm_away_prob) :=
    get_polymarket_probs partial_ratio float_of_string home_team away_team (fetch n) in
  let '(model_home_prob, model_away_prob) :=
    model_probability home_team_id away_team_id in
  let '(edge_label, edge_value) := classify_edge model_home_prob pm_home_prob in
  let emoji := label_emoji edge_label in
  let home_stats := get_team_stats home_team_id in
  let away_stats := get_team_stats away_team_id in
  let home_net := (off_rating home_stats - def_rating home_stats)%R in
  let away_net := (off_rating away_stats - def_rating away_stats)%R in
  [ emoji +:+ " <b>" +:+ home_team +:+ " vs " +:+ away_team +:+ "</b>";
    "Market: " +:+ format_pct pm_home_prob +:+ " vs " +:+ format_pct pm_away_prob;
    "Model: " +:+ format_pct model_home_prob +:+ " vs " +:+ format_pct model_away_prob;
    "Edge: " +:+ format_pct edge_value +:+ " (" +:+ label_text edge_label +:+ ")";
    "Reason: " +:+ home_team +:+ " Net Rating: " +:+ format_f1 home_net +:+ ", "
      +:+ away_team +:+ " Net Rating: " +:+ format_f1 away_net;
    "" ].

Definition build_report (games : list Game) : string :=
  let report := [ report_title; "Date: " +:+ now; "" ] in
  let report :=
    fold_left (fun report entry => report ++ game_lines entry)
              (Py.enumerate games) report in
  Py.join nl report.

(** What [main] hands to [send_telegram_message], [games] being the list
    [get_today_games] returned. *)
Definition main (games : list Game) : string :=
  match games with
  | [] => no_games_message
  | _ => build_report games
  end.

End Report.

(** ** A scorer for the worked examples *)

(** [occurs s t]: [s] occurs in [t] as a contiguous piece. *)
Fixpoint occurs (s t : string) : bool :=
  String.prefix s t ||
  match t with
  | EmptyString => false
  | String _ t' => occurs s t'
  end.

(** The scores [fuzz.partial_ratio] gives on the pairs the examples use: 0
    when a string is empty, 100 when one string occurs in the other, and 0
    when the two have no character in common.  On other pairs it is a
    stand-in, and no example has one. *)
Definition containment_ratio (s t : string) : Z :=
  match s, t with
  | EmptyString, _ | _, EmptyString => 0
  | _, _ => if occurs s t || occurs t s then 100 else 0
  end.

(** The examples have no price that is a string. *)
Definition no_float_of_string (s : string) : option R := None.

(** ** Notions of the specification *)

(** Net rating of a team and the logistic transform of a difference of net
    ratings, as the specification writes them. *)
Definition net (r : Rating) : R := (off_rating r - def_rating r)%R.
Definition logistic (diff : R) : R := (1 / (1 + exp (- diff / 10)))%R.

(** The score of the lower-cased team name against the lower-cased outcome
    label is above the threshold of 75. *)
Definition crosses (partial_ratio : string -> string -> Z)
    (team outcome : string) : bool :=
  75 <? partial_ratio (Py.lower team) (Py.lower outcome).

(** First and last position of [l], counted from [i], whose element
    satisfies [P]; -1 when there is none. *)
Fixpoint first_index_from {A} (P : A -> bool) (i : nat) (l : list A) : Z :=
  match l with
  | [] => -1
  | x :: l' => if P x then Z.of_nat i else first_index_from P (S i) l'
  end.

Fixpoint last_index_from {A} (P : A -> bool) (i : nat) (l : list A) : Z :=
  match l with
  | [] => -1
  | x :: l' =>
      let k := last_index_from P (S i) l' in
      if k =? -1 then (if P x then Z.of_nat i else -1) else k
  end.

Definition first_index {A} (P : A -> bool) (l : list A) : Z := first_index_from P 0 l.
Definition last_index {A} (P : A -> bool) (l : list A) : Z := last_index_from P 0 l.

(** [k] is the last position of [l] whose element satisfies [P], or -1 when
    no element does. *)
Definition is_last_index {A} (P : A -> bool) (l : list A) (k : Z) : Prop :=
  (k = -1 /\ forall x, x ∈ l -> P x = false) \/
  (exists j x, k = Z.of_nat j /\ l !! j = Some x /\ P x = true /\
     forall j' x', (j < j')%nat -> l !! j' = Some x' -> P x' = false).

(** An outcome label the away name crosses the threshold on and the home
    name does not: the labels the [elif] branch of the loop sees. *)
Definition crosses_away_only (partial_ratio : string -> string -> Z)
    (home_team away_team outcome : string) : bool :=
  negb (crosses partial_ratio home_team outcome)
  && crosses partial_ratio away_team outcome.

(** A three-way market: two labels carry the home name. *)
Definition three_way_outcomes : list string :=
  [ "Bulls"; "Magic"; "Bulls by 10+" ].

(** A market in which the loop body returns or raises: a candidate with at
    least two outcomes and two prices and both indices resolved. *)
Definition resolves (partial_ratio : string -> string -> Z)
    (home_team away_team : string) (market : MarketQuote) : bool :=
  is_candidate partial_ratio home_team away_team market
  && ((2 <=? length (outcomes market))%nat && (2 <=? length (prices market))%nat)
  && (negb (fst (resolve_outcomes partial_ratio home_team away_team
                   (outcomes market)) =? -1)
      && negb (snd (resolve_outcomes partial_ratio home_team away_team
                      (outcomes market)) =? -1)).

(** The number a price stands for, and the price with the default for a
    missing or false one. *)
Definition number_of (float_of_string : string -> option R) (p : price) : R :=
  match p with
  | PNull => 0%R
  | PNum x => x
  | PStr s => default 0%R (float_of_string s)
  end.

Definition price_or_default (float_of_string : string -> option R) (p : price) : R :=
  if truthy p then number_of float_of_string p else 0.5%R.

(** [float] does not raise on the price: a string price is empty or the
    text of a number. *)
Definition convertible (float_of_string : string -> option R) (p : price) : Prop :=
  match p with
  | PStr s => s = EmptyString \/ exists x, float_of_string s = Some x
  | _ => True
  end.

(** Two markets on the same game: the first lists its outcomes as 1 and 2,
    the second by team name. *)
Definition numbered_market : MarketQuote :=
  {| question := Some "Bulls vs Magic";
     outcomes := [ "1"; "2" ];
     prices := [ PNum 0.9; PNum 0.1 ] |}.

Definition named_market : MarketQuote :=
  {| question := Some "Will the Bulls win vs Magic";
     outcomes := [ "Bulls"; "Magic" ];
     prices := [ PNum 0.7; PNum 0.3 ] |}.

(** A market on another game, and one whose home price is missing. *)
Definition other_market : MarketQuote :=
  {| question := Some "Over 220.5";
     outcomes := [ "Yes"; "No" ];
     prices := [ PNum 0.2; PNum 0.8 ] |}.

Definition unpriced_market : MarketQuote :=
  {| question := Some "Bulls vs Magic";
     outcomes := [ "Magic"; "Bulls" ];
     prices := [ PNum 0.4; PNull ] |}.


(** A pair with its sides exchanged. *)
Definition swap_pair {A B} (p : A * B) : B * A := (snd p, fst p).

(** The price stands for a probability: it is null, or its number lies in
    [0,1]. *)
Definition price_in_unit (float_of_string : string -> option R) (p : price) : Prop :=
  match p with
  | PNull => True
  | PNum x => (0 <= x <= 1)%R
  | PStr s => forall x, float_of_string s = Some x -> (0 <= x <= 1)%R
  end.

(** [float] raises on the price: a non-empty string that is no number. *)
Definition unparsable (float_of_string : string -> option R) (p : price) : Prop :=
  exists s, p = PStr s /\ s <> EmptyString /\ float_of_string s = None.

(** A market with three outcomes and two prices, one whose home price is
    a text, and one without a question. *)
Definition three_outcome_market : MarketQuote :=
  {| question := Some "Bulls vs Magic";
     outcomes := [ "Bulls"; "X"; "Magic" ];
     prices := [ PNum 0.6; PNum 0.4 ] |}.

Definition text_price_market : MarketQuote :=
  {| question := Some "Bulls vs Magic";
     outcomes := [ "Bulls"; "Magic" ];
     prices := [ PStr "n/a"; PNum 0.4 ] |}.

Definition untitled_market : MarketQuote :=
  {| question := None;
     outcomes := [ "Bulls"; "Magic" ];
     prices := [ PNum 0.1; PNum 0.9 ] |}.

(** A market on a team and its reserve side: the label of the reserve
    side carries the name of the first team. *)
Definition reserve_market : MarketQuote :=
  {| question := Some "Kings vs Kings B";
     outcomes := [ "Kings"; "Kings B" ];
     prices := [ PNum 0.8; PNum 0.2 ] |}.

(** The lines of a report: the three lines of the head, then the lines of
    each game, in the order of the games. *)
Definition report_lines (partial_ratio : string -> string -> Z)
    (float_of_string : string -> option R) (now : string)
    (format_pct format_f1 : R -> string)
    (fetch : nat -> Py.M (list MarketQuote)) (games : list Game) : list string :=
  [ report_title; "Date: " +:+ now; "" ]
  ++ concat (map (game_lines partial_ratio float_of_string format_pct format_f1 fetch)
                 (Py.enumerate games)).

(** ** Values of [math.exp] for the worked examples *)

(** The values [math.exp] returns at the arguments the five ratings of the
    store lead to. *)
#[warnings="-inexact-float"]
Definition exp_store_points : list (PrimFloat.float * PrimFloat.float) :=
  [ ((-0.0), 1.0);
    (0.17999999999999972, 1.19721736312181);
    ((-0.2799999999999997), 0.7557837414557257);
    ((-0.4), 0.6703200460356393);
    ((-0.65), 0.522045776761016);
    ((-0.17999999999999972), 0.8352702114112722);
    ((-0.4599999999999994), 0.6312836455069264);
    ((-0.5799999999999997), 0.5598983665654022);
    ((-0.8299999999999997), 0.4360492863215357);
    (0.2799999999999997, 1.3231298123374364);
    (0.4599999999999994, 1.584073984994481);
    ((-0.12000000000000029), 0.8869204367171573);
    ((-0.3700000000000003), 0.6907343306373545);
    (0.4, 1.4918246976412703);
    (0.5799999999999997, 1.786038430750073);
    (0.12000000000000029, 1.127496851579376);
    ((-0.25), 0.7788007830714049);
    (0.65, 1.9155408290138962);
    (0.8299999999999997, 2.293318740264182);
    (0.3700000000000003, 1.4477346146633248);
    (0.25, 1.2840254166877414) ]%float.

(** Its values at some arguments that other ratings lead to. *)
#[warnings="-inexact-float"]
Definition exp_far_points : list (PrimFloat.float * PrimFloat.float) :=
  [ (0.0, 1.0);
    (3.552713678800501e-16, 1.0000000000000004);
    ((-40.0), 4.248354255291589e-18);
    ((-50.0), 1.9287498479639178e-22);
    (10.0, 22026.465794806718) ]%float.

Fixpoint exp_lookup (x : PrimFloat.float) (points : list (PrimFloat.float * PrimFloat.float)) : option PrimFloat.float :=
  match points with
  | [] => None
  | (a, b) :: rest =>
      if PrimFloat.Leibniz.eqb a x then Some b else exp_lookup x rest
  end.

(** [math.exp] on the arguments of the examples: its value at the points
    above, and [OverflowError] above 709.782712893384, the largest argument
    with a binary64 result.  On other arguments it is a stand-in (NaN), and
    no example has one. *)
#[warnings="-inexact-float"]
Definition exp_table (x : PrimFloat.float) : Py.M PrimFloat.float :=
  match exp_lookup x (exp_store_points ++ exp_far_points) with
  | Some y => Py.ret y
  | None =>
      if PrimFloat.ltb 709.782712893384%float x then Py.raise Py.OverflowError
      else Py.ret nan
  end.



(** Ratings with net ratings -8000, -100, 400 and 500, and two ratings
    whose net ratings are both 8.3 in decimals. *)
Definition rating_net_m8000 : IEEE.Rating :=
  {| IEEE.off_rating := 110.0; IEEE.def_rating := 8110.0 |}.
#[warnings="-inexact-float"]
Definition rating_celtics : IEEE.Rating :=
  {| IEEE.off_rating := 118.5; IEEE.def_rating := 110.2 |}.
#[warnings="-inexact-float"]
Definition rating_net_8_3 : IEEE.Rating :=
  {| IEEE.off_rating := 8.3; IEEE.def_rating := 0.0 |}.

(** * Properties *)

(** ** Python's [max] and [min] on reals *)

Lemma py_max_Rmax (a b : R) : Py.max a b = Rmax a b.
Proof.
  unfold Py.max, Rmax.
  destruct (Rlt_dec a b), (Rle_dec a b); try reflexivity; lra.
Qed.

Lemma py_min_Rmin (a b : R) : Py.min a b = Rmin a b.
Proof.
  unfold Py.min, Rmin.
  destruct (Rlt_dec b a), (Rle_dec a b); try reflexivity; lra.
Qed.

(** ** Indexing a list *)

Lemma getitem_lookup {A} (l : list A) (j : nat) (x : A) :
  l !! j = Some x -> Py.getitem l (Z.of_nat j) = Py.ret x.
Proof.
  intros Hj. unfold Py.getitem.
  assert ((Z.of_nat j <? 0) = false) as E by (apply Z.ltb_ge; lia).
  cbv zeta. rewrite !E, Nat2Z.id, Hj. reflexivity.
Qed.

Lemma getitem_past_end {A} (l : list A) (j : nat) :
  (length l <= j)%nat -> Py.getitem l (Z.of_nat j) = Py.raise Py.IndexError.
Proof.
  intros Hj. unfold Py.getitem.
  assert ((Z.of_nat j <? 0) = false) as E by (apply Z.ltb_ge; lia).
  cbv zeta. rewrite !E, Nat2Z.id, (lookup_ge_None_2 l j Hj). reflexivity.
Qed.

(** ** Rating store *)

Lemma mock_stats_dom : dom mock_stats = ({[ 14; 2; 17; 15 ]} : gset Z).
Proof. unfold mock_stats. rewrite !dom_insert_L, dom_empty_L. set_solver. Qed.

Lemma get_team_stats_known :
  get_team_stats 14 = {| off_rating := 115.2; def_rating := 108.7 |} /\
  get_team_stats 2 = {| off_rating := 118.5; def_rating := 110.2 |} /\
  get_team_stats 17 = {| off_rating := 112.8; def_rating := 109.1 |} /\
  get_team_stats 15 = {| off_rating := 110.3; def_rating := 107.8 |}.
Proof. repeat split; reflexivity. Qed.

(** C7. A team identifier that is not a key of the rating store gets the
    neutral rating, both components 110.0; a key of the store gets the
    pair stored under it.  [get_team_stats] is a total function: there is
    no identifier on which it fails. *)
Theorem get_team_stats_default_or_stored (team_id : Z) :
  (mock_stats !! team_id = None ->
     get_team_stats team_id = {| off_rating := 110.0; def_rating := 110.0 |}) /\
  (forall stats, mock_stats !! team_id = Some stats ->
     get_team_stats team_id = stats) /\
  (team_id ∉ ({[ 14; 2; 17; 15 ]} : gset Z) ->
     off_rating (get_team_stats team_id) = 110.0%R /\
     def_rating (get_team_stats team_id) = 110.0%R).
Proof.
  unfold get_team_stats. split; [|split].
  - intros ->. reflexivity.
  - intros stats ->. reflexivity.
  - rewrite <- mock_stats_dom. intros Hdom.
    apply not_elem_of_dom in Hdom. rewrite Hdom. split; reflexivity.
Qed.

Lemma get_team_stats_default_or_stored_witness :
  get_team_stats 11 = {| off_rating := 110.0; def_rating := 110.0 |} /\
  get_team_stats 14 = {| off_rating := 115.2; def_rating := 108.7 |}.
Proof.
  split.
  - apply (proj1 (get_team_stats_default_or_stored 11)). reflexivity.
  - apply (proj1 (proj2 (get_team_stats_default_or_stored 14))). reflexivity.
Defined.

(** ** The transform of the estimator on exact reals *)

Lemma logistic_bounds (diff : R) : (0 < logistic diff < 1)%R.
Proof.
  unfold logistic.
  pose proof (exp_pos (- diff / 10)) as He.
  split.
  - apply Rdiv_lt_0_compat; lra.
  - apply (Rmult_lt_reg_r (1 + exp (- diff / 10))); [lra|].
    unfold Rdiv. rewrite Rmult_assoc, Rinv_l by lra. lra.
Qed.

Lemma logistic_increasing (d d' : R) : (d < d')%R -> (logistic d < logistic d')%R.
Proof.
  intros Hlt. unfold logistic.
  pose proof (exp_pos (- d / 10)) as He.
  pose proof (exp_pos (- d' / 10)) as He'.
  assert (exp (- d' / 10) < exp (- d / 10))%R as Hexp
    by (apply exp_increasing; lra).
  unfold Rdiv at 1 3. rewrite !Rmult_1_l.
  apply Rinv_lt_contravar; [|lra].
  apply Rmult_lt_0_compat; lra.
Qed.

Lemma logistic_0 : logistic 0 = 0.5%R.
Proof.
  unfold logistic.
  replace (- 0 / 10)%R with 0%R by lra.
  rewrite exp_0. lra.
Qed.

Lemma clamp_logistic (diff : R) :
  Py.max 0 (Py.min 1 (logistic diff)) = logistic diff.
Proof.
  pose proof (logistic_bounds diff) as [H0 H1].
  unfold Py.max, Py.min.
  destruct (Rlt_dec (logistic diff) 1); [|lra].
  destruct (Rlt_dec 0 (logistic diff)); [reflexivity|lra].
Qed.

Lemma model_probability_of_logistic (home_stats away_stats : Rating) :
  model_probability_of home_stats away_stats =
    (logistic (net home_stats - net away_stats),
     (1 - logistic (net home_stats - net away_stats))%R).
Proof.
  unfold model_probability_of.
  fold (net home_stats) (net away_stats).
  fold (logistic (net home_stats - net away_stats)).
  rewrite clamp_logistic. reflexivity.
Qed.

(** ** Binary64 numbers *)

Lemma SFcompare_antisym (x y : spec_float) (c : comparison) :
  SFcompare x y = Some c -> SFcompare y x = Some (CompOpp c).
Proof.
  destruct x as [sx|sx| |sx mx ex], y as [sy|sy| |sy my ey]; simpl;
    try discriminate;
    try (destruct sx; intros [= <-]; reflexivity);
    try (destruct sy; intros [= <-]; reflexivity);
    try (intros [= <-]; reflexivity).
  - destruct sx, sy; intros [= <-]; reflexivity.
  - destruct sx, sy; intros [= <-]; try reflexivity; f_equal;
      rewrite (Z.compare_antisym ex ey);
      destruct (ex ?= ey)%Z; simpl; try reflexivity;
      try f_equal; symmetry; apply (Pos.compare_cont_antisym mx my Eq).
Qed.

Lemma SFcompare_None (x y : spec_float) :
  SFcompare x y = None -> x = S754_nan \/ y = S754_nan.
Proof.
  destruct x as [sx|sx| |sx mx ex], y as [sy|sy| |sy my ey]; simpl;
    try discriminate; auto.
Qed.


Lemma ltb_leb_false (x y : PrimFloat.float) :
  PrimFloat.ltb x y = true -> PrimFloat.leb y x = false.
Proof.
  rewrite FloatAxioms.ltb_spec, FloatAxioms.leb_spec. unfold SFltb, SFleb.
  destruct (SFcompare (Prim2SF x) (Prim2SF y)) as [c|] eqn:Hc; [|discriminate].
  rewrite (SFcompare_antisym _ _ _ Hc). destruct c; simpl; congruence.
Qed.

(** Below [b] is what is left of the numbers above some [a] when those at
    or above [b] are taken away, [b] not being NaN. *)
Lemma leb_false_ltb (a b e : PrimFloat.float) :
  PrimFloat.leb a e = true -> PrimFloat.leb b b = true ->
  PrimFloat.leb b e = false -> PrimFloat.ltb e b = true.
Proof.
  rewrite !FloatAxioms.leb_spec, FloatAxioms.ltb_spec. unfold SFleb, SFltb.
  destruct (SFcompare (Prim2SF a) (Prim2SF e)) as [ca|] eqn:Ha; [|discriminate].
  destruct (SFcompare (Prim2SF b) (Prim2SF b)) as [cb|] eqn:Hb; [|discriminate].
  intros _ _.
  destruct (SFcompare (Prim2SF b) (Prim2SF e)) as [c|] eqn:Hc.
  - rewrite (SFcompare_antisym _ _ _ Hc). destruct c; simpl; congruence.
  - apply SFcompare_None in Hc as [Hn | Hn].
    + rewrite Hn in Hb. discriminate.
    + rewrite Hn in Ha. destruct (Prim2SF a); discriminate.
Qed.

Lemma is_finite_spec (x : PrimFloat.float) :
  PrimFloat.is_finite x = true ->
  (exists s, Prim2SF x = S754_zero s) \/
  (exists s m e, Prim2SF x = S754_finite s m e).
Proof.
  unfold PrimFloat.is_finite, PrimFloat.is_nan, PrimFloat.is_infinity.
  rewrite !FloatAxioms.eqb_spec, FloatAxioms.abs_spec.
  destruct (Prim2SF x) as [s|s| |s m e] eqn:Hx; simpl.
  - intros _. left. exists s. reflexivity.
  - destruct s; vm_compute; discriminate.
  - vm_compute. discriminate.
  - intros _. right. exists s, m, e. reflexivity.
Qed.

(** The difference of two equal finite numbers is a zero. *)
Lemma sub_equal_finite (x y : PrimFloat.float) :
  PrimFloat.is_finite x = true ->
  PrimFloat.eqb x y = true ->
  PrimFloat.sub x y = 0%float \/ PrimFloat.sub x y = neg_zero.
Proof.
  intros Hfin Heq.
  assert (exists s, Prim2SF (PrimFloat.sub x y) = S754_zero s) as [s Hs].
  { rewrite FloatAxioms.sub_spec. rewrite FloatAxioms.eqb_spec in Heq.
    unfold SFeqb in Heq.
    destruct (is_finite_spec x Hfin) as [[sx Hx] | (sx & mx & ex & Hx)];
      rewrite Hx in *;
      destruct (Prim2SF y) as [sy|sy| |sy my ey]; simpl in Heq;
      try discriminate; try (destruct sx; discriminate);
      try (destruct sy; discriminate).
    - unfold SF64sub. simpl. destruct sx, sy; eexists; reflexivity.
    - exists false. unfold SF64sub. simpl.
      destruct sx, sy; try discriminate;
        destruct (ex ?= ey)%Z eqn:He; try discriminate;
        apply Z.compare_eq in He; subst ey;
        [ destruct (Pos.compare_cont Eq mx my) eqn:Hm; try discriminate
        | destruct (Pos.compare_cont Eq mx my) eqn:Hm; try discriminate ];
        apply Pos.compare_eq in Hm; subst my;
        rewrite Z.min_id, Z.sub_diag; reflexivity. }
  rewrite <- (SF2Prim_Prim2SF (PrimFloat.sub x y)), Hs.
  destruct s; [right | left]; reflexivity.
Qed.


(** ** Model estimator on binary64 numbers *)








Section Estimator64.

Variable math_exp : PrimFloat.float -> Py.M PrimFloat.float.

(** The three ways out of the body: [math.exp] raises, the division by
    [1 + e] raises, or the pair is returned. *)
Lemma model_probability_of_cases (home_stats away_stats : IEEE.Rating) :
  IEEE.model_probability_of math_exp home_stats away_stats =
    match math_exp (IEEE.exp_argument home_stats away_stats) with
    | inl _ => (0.5, 0.5)%float
    | inr e =>
        if PrimFloat.eqb (PrimFloat.add 1 e) 0 then (0.5, 0.5)%float
        else
          let p := IEEE.max 0 (IEEE.min 1 (PrimFloat.div 1 (PrimFloat.add 1 e))) in
          (p, PrimFloat.sub 1 p)
    end.
Proof.
  unfold IEEE.model_probability_of, IEEE.exp_argument, IEEE.net_diff, IEEE.net.
  set (diff := PrimFloat.sub _ _).
  change (IEEE.truediv (PrimFloat.opp diff) 10)
    with (Py.ret (PrimFloat.div (PrimFloat.opp diff) 10)).
  cbn [Py.bind Py.ret].
  destruct (math_exp _) as [x|e]; [reflexivity|].
  cbn [Py.bind]. unfold IEEE.truediv.
  destruct (PrimFloat.eqb (PrimFloat.add 1 e) 0); reflexivity.
Qed.


(** C2 (amended). For every pair of ratings, with
    [diff = (home_off - home_def) - (away_off - away_def)] in binary64: when
    [math.exp(-diff / 10)] returns [e] (and [1 + e] is not zero) the
    estimator returns [p_home = 1 / (1 + e)] clamped to [0,1] and
    [p_away = 1 - p_home], every operation rounding to binary64; when
    [math.exp] raises, the handler returns (0.5, 0.5).  When the two net
    ratings are equal finite binary64 numbers the result is exactly
    (0.5, 0.5), [math.exp] giving 1 at zero.  [model_probability] applies
    this to the ratings of the two identifiers. *)
Theorem model_probability_binary64 :
  (forall (home_stats away_stats : IEEE.Rating) (e : PrimFloat.float),
     let home_net := PrimFloat.sub (IEEE.off_rating home_stats)
                                   (IEEE.def_rating home_stats) in
     let away_net := PrimFloat.sub (IEEE.off_rating away_stats)
                                   (IEEE.def_rating away_stats) in
     let diff := PrimFloat.sub home_net away_net in
     math_exp (PrimFloat.div (PrimFloat.opp diff) 10) = Py.ret e ->
     PrimFloat.eqb (PrimFloat.add 1 e) 0 = false ->
     let p_home := IEEE.max 0 (IEEE.min 1 (PrimFloat.div 1 (PrimFloat.add 1 e))) in
     IEEE.model_probability_of math_exp home_stats away_stats
     = (p_home, PrimFloat.sub 1 p_home)) /\
  (forall (home_stats away_stats : IEEE.Rating) (x : Py.exn),
     math_exp (IEEE.exp_argument home_stats away_stats) = Py.raise x ->
     IEEE.model_probability_of math_exp home_stats away_stats = (0.5, 0.5)%float) /\
  (forall home_stats away_stats : IEEE.Rating,
     PrimFloat.is_finite (IEEE.net home_stats) = true ->
     PrimFloat.eqb (IEEE.net home_stats) (IEEE.net away_stats) = true ->
     math_exp 0%float = Py.ret 1%float ->
     math_exp neg_zero = Py.ret 1%float ->
     IEEE.model_probability_of math_exp home_stats away_stats = (0.5, 0.5)%float) /\
  (forall home_team_id away_team_id : Z,
     IEEE.model_probability math_exp home_team_id away_team_id =
       IEEE.model_probability_of math_exp (IEEE.get_team_stats home_team_id)
                                          (IEEE.get_team_stats away_team_id)).
Proof.
  split; [|split; [|split]].
  - intros home_stats away_stats e home_net away_net diff He Hnz p_home.
    rewrite model_probability_of_cases.
    change (IEEE.exp_argument home_stats away_stats)
      with (PrimFloat.div (PrimFloat.opp diff) 10).
    rewrite He. unfold Py.ret. cbv beta iota. rewrite Hnz. reflexivity.
  - intros home_stats away_stats x Hx.
    rewrite model_probability_of_cases, Hx. reflexivity.
  - intros home_stats away_stats Hfin Heq H0 Hn0.
    rewrite model_probability_of_cases.
    unfold IEEE.exp_argument, IEEE.net_diff.
    destruct (sub_equal_finite _ _ Hfin Heq) as [-> | ->].
    + change (PrimFloat.div (PrimFloat.opp 0) 10) with neg_zero.
      rewrite Hn0. reflexivity.
    + change (PrimFloat.div (PrimFloat.opp neg_zero) 10) with 0%float.
      rewrite H0. reflexivity.
  - reflexivity.
Qed.


End Estimator64.

#[warnings="-inexact-float"]
Lemma model_probability_binary64_witness :
  IEEE.model_probability_of exp_table
    {| IEEE.off_rating := 115.2; IEEE.def_rating := 108.7 |}
    {| IEEE.off_rating := 112.5; IEEE.def_rating := 106.0 |}
  = (0.5, 0.5)%float /\
  IEEE.model_probability exp_table 14 2
  = (0.45512110762641994, 0.5448788923735801)%float.
Proof.
  split.
  - apply (proj1 (proj2 (proj2 (model_probability_binary64 exp_table))));
      reflexivity.
  - rewrite (proj2 (proj2 (proj2 (model_probability_binary64 exp_table))) 14 2).
    rewrite (proj1 (model_probability_binary64 exp_table)
               (IEEE.get_team_stats 14) (IEEE.get_team_stats 2)
               _ eq_refl eq_refl).
    reflexivity.
Defined.

(** C2, as stated, fails.  With net ratings -8000 and 0 [math.exp] is
    called at 800 and raises, and the handler returns (0.5, 0.5), which is
    not the value of the transform at -8000.  And the net ratings of
    118.5/110.2 and 8.3/0.0, both 8.3 in decimals, differ as binary64
    numbers: the result is not (0.5, 0.5). *)
#[warnings="-inexact-float"]
Lemma model_probability_overflow_handler :
  IEEE.exp_argument rating_net_m8000 IEEE.default_stats = 800%float /\
  exp_table 800%float = Py.raise Py.OverflowError /\
  IEEE.model_probability_of exp_table rating_net_m8000 IEEE.default_stats
    = (0.5, 0.5)%float /\
  (1 / (1 + exp (- (-8000) / 10)) < 0.5)%R /\
  (118.5 - 110.2 = 8.3 - 0.0)%R /\
  IEEE.model_probability_of exp_table rating_celtics rating_net_8_3
    = (0.4999999999999999, 0.5000000000000001)%float.
Proof.
  repeat split; try reflexivity; try lra.
  replace (- (-8000) / 10)%R with 800%R by lra.
  assert (1 < exp 800)%R as He.
  { rewrite <- exp_0. apply exp_increasing. lra. }
  apply (Rmult_lt_reg_r (1 + exp 800)); [lra|].
  unfold Rdiv. rewrite Rmult_assoc, Rinv_l by lra. lra.
Qed.



(** ** Edge classifier *)

(** C1 (amended). For every pair of binary64 numbers the classifier returns
    the edge, the binary64 difference [model_p - market_p], as it is, with
    GOOD BET when the edge is at least 0.07, SMALL EDGE when it is at least
    0.03 and below 0.07, and NO BET otherwise (NaN included), 0.07 and 0.03
    being the binary64 constants.  The four worked cases give GOOD BET,
    SMALL EDGE, NO BET and NO BET, with the edges 0.09999999999999998,
    0.040000000000000036, 0.010000000000000009 and -0.09999999999999998. *)
#[warnings="-inexact-float"]
Theorem classify_edge_binary64_thresholds :
  (forall model_p market_p : PrimFloat.float,
     let edge := PrimFloat.sub model_p market_p in
     snd (IEEE.classify_edge model_p market_p) = edge /\
     (PrimFloat.leb 0.07 edge = true ->
      fst (IEEE.classify_edge model_p market_p) = GOOD_BET) /\
     (PrimFloat.leb 0.03 edge = true -> PrimFloat.ltb edge 0.07 = true ->
      fst (IEEE.classify_edge model_p market_p) = SMALL_EDGE) /\
     (PrimFloat.leb 0.07 edge = false ->
      ~ (PrimFloat.leb 0.03 edge = true /\ PrimFloat.ltb edge 0.07 = true) ->
      fst (IEEE.classify_edge model_p market_p) = NO_BET)) /\
  IEEE.classify_edge 0.60 0.50 = (GOOD_BET, 0.09999999999999998%float) /\
  IEEE.classify_edge 0.54 0.50 = (SMALL_EDGE, 0.040000000000000036%float) /\
  IEEE.classify_edge 0.51 0.50 = (NO_BET, 0.010000000000000009%float) /\
  IEEE.classify_edge 0.40 0.50 = (NO_BET, (-0.09999999999999998)%float).
Proof.
  split; [|repeat split; reflexivity].
  intros model_p market_p edge. unfold IEEE.classify_edge. fold edge.
  split; [|split; [|split]].
  - destruct (PrimFloat.leb _ edge); [reflexivity|].
    destruct (PrimFloat.leb _ edge); reflexivity.
  - intros ->. reflexivity.
  - intros H3 H7. rewrite (ltb_leb_false _ _ H7), H3. reflexivity.
  - intros H7 Hnot. rewrite H7.
    match goal with
    | |- context [if ?b then (SMALL_EDGE, _) else _] => destruct b eqn:H3
    end; [|reflexivity].
    exfalso. apply Hnot. split; [reflexivity|].
    apply (leb_false_ltb _ _ _ H3); [reflexivity | exact H7].
Qed.

#[warnings="-inexact-float"]
Lemma classify_edge_binary64_thresholds_witness :
  fst (IEEE.classify_edge 0.62 0.50) = GOOD_BET /\
  fst (IEEE.classify_edge 0.55 0.50) = SMALL_EDGE /\
  fst (IEEE.classify_edge 0.50 0.55) = NO_BET.
Proof.
  split; [|split].
  - apply (proj1 classify_edge_binary64_thresholds 0.62 0.50)%float. reflexivity.
  - apply (proj1 classify_edge_binary64_thresholds 0.55 0.50)%float; reflexivity.
  - apply (proj1 classify_edge_binary64_thresholds 0.50 0.55)%float.
    + reflexivity.
    + intros [H _]. discriminate H.
Defined.

(** C1, as stated, fails.  The decimals 0.62 and 0.55 differ by exactly
    0.07, and the classifier answers SMALL EDGE: the binary64 difference is
    0.06999999999999995.  And the edge of the fourth worked case is not
    -0.10. *)
#[warnings="-inexact-float"]
Lemma classify_edge_decimal_threshold :
  (0.62 - 0.55 >= 0.07)%R /\
  IEEE.classify_edge 0.62 0.55 = (SMALL_EDGE, 0.06999999999999995%float) /\
  PrimFloat.eqb (snd (IEEE.classify_edge 0.40 0.50)) (-0.10) = false.
Proof. repeat split; try reflexivity. lra. Qed.

(** ** Positions in a list *)

Section Index.

Context {A : Type} (P : A -> bool).

Lemma last_index_from_range (i : nat) (l : list A) :
  last_index_from P i l = -1 \/
  Z.of_nat i <= last_index_from P i l < Z.of_nat i + Z.of_nat (length l).
Proof.
  revert i. induction l as [|x l IH]; intros i; simpl; [left; reflexivity|].
  destruct (IH (S i)) as [-> | Hr].
  - simpl. destruct (P x); [right; lia | left; reflexivity].
  - destruct (Z.eqb_spec (last_index_from P (S i) l) (-1)) as [E|_]; lia.
Qed.

Lemma last_index_from_is_last (i : nat) (l : list A) :
  (last_index_from P i l = -1 /\ forall x, x ∈ l -> P x = false) \/
  (exists j x, last_index_from P i l = Z.of_nat (i + j) /\ l !! j = Some x /\
     P x = true /\
     forall j' x', (j < j')%nat -> l !! j' = Some x' -> P x' = false).
Proof.
  revert i. induction l as [|x l IH]; intros i; simpl.
  - left. split; [reflexivity|]. intros y Hy. inversion Hy.
  - destruct (IH (S i)) as [[E Hnone] | (j & y & E & Hj & Hy & Hlater)]; rewrite E.
    + simpl. destruct (P x) eqn:Hx.
      * right. exists 0%nat, x. repeat split; try assumption; [f_equal; lia|].
        intros [|j'] x' Hlt Hl; [lia|]. simpl in Hl.
        apply Hnone. eapply list_elem_of_lookup_2; eassumption.
      * left. split; [reflexivity|].
        intros y Hy. apply elem_of_cons in Hy as [-> | Hy]; auto.
    + destruct (Z.eqb_spec (Z.of_nat (S i + j)) (-1)); [lia|].
      right. exists (S j), y. repeat split; try assumption; [f_equal; lia|].
      intros [|j'] x' Hlt Hl; [lia|]. simpl in Hl.
      eapply Hlater; [|eassumption]. lia.
Qed.

Lemma last_index_is_last (l : list A) : is_last_index P l (last_index P l).
Proof.
  unfold is_last_index, last_index.
  destruct (last_index_from_is_last 0 l) as [H | (j & x & E & H)]; [left; exact H|].
  right. exists j, x. split; [exact E | exact H].
Qed.

End Index.

(** ** Market matcher: the outcome loop *)

Section Outcomes.

Variable partial_ratio : string -> string -> Z.
Variables home_team away_team : string.

Let home_crosses := crosses partial_ratio home_team.
Let away_only := crosses_away_only partial_ratio home_team away_team.

Lemma resolve_step_cases (h a : Z) (i : nat) (outcome : string) :
  resolve_step partial_ratio home_team away_team (h, a) (i, outcome) =
    (if home_crosses outcome then Z.of_nat i else h,
     if away_only outcome then Z.of_nat i else a).
Proof.
  unfold resolve_step, home_crosses, away_only, crosses_away_only, crosses.
  destruct (75 <? partial_ratio (Py.lower home_team) (Py.lower outcome));
    destruct (75 <? partial_ratio (Py.lower away_team) (Py.lower outcome));
    reflexivity.
Qed.

(** The loop overwrites an index each time its branch is taken, so each
    index ends as the last position of its branch. *)
Lemma resolve_fold (l : list string) (i : nat) (h a : Z) :
  fold_left (resolve_step partial_ratio home_team away_team)
            (combine (seq i (length l)) l) (h, a) =
    (if last_index_from home_crosses i l =? -1 then h
     else last_index_from home_crosses i l,
     if last_index_from away_only i l =? -1 then a
     else last_index_from away_only i l).
Proof.
  revert i h a. induction l as [|x l IH]; intros i h a; [reflexivity|].
  cbn [length seq combine fold_left last_index_from].
  rewrite resolve_step_cases, IH.
  pose proof (last_index_from_range home_crosses (S i) l) as Hh.
  pose proof (last_index_from_range away_only (S i) l) as Ha.
  f_equal.
  - destruct (Z.eqb_spec (last_index_from home_crosses (S i) l) (-1)) as [E|E].
    + destruct (home_crosses x); [|reflexivity].
      destruct (Z.eqb_spec (Z.of_nat i) (-1)); [lia | reflexivity].
    + destruct (Z.eqb_spec (last_index_from home_crosses (S i) l) (-1));
        [contradiction | reflexivity].
  - destruct (Z.eqb_spec (last_index_from away_only (S i) l) (-1)) as [E|E].
    + destruct (away_only x); [|reflexivity].
      destruct (Z.eqb_spec (Z.of_nat i) (-1)); [lia | reflexivity].
    + destruct (Z.eqb_spec (last_index_from away_only (S i) l) (-1));
        [contradiction | reflexivity].
Qed.

Lemma resolve_outcomes_last (outcomes : list string) :
  resolve_outcomes partial_ratio home_team away_team outcomes =
    (last_index home_crosses outcomes, last_index away_only outcomes).
Proof.
  unfold resolve_outcomes, Py.enumerate, last_index.
  rewrite resolve_fold.
  f_equal.
  - destruct (Z.eqb_spec (last_index_from home_crosses 0 outcomes) (-1)); congruence.
  - destruct (Z.eqb_spec (last_index_from away_only 0 outcomes) (-1)); congruence.
Qed.

(** Two resolved indices are positions of the outcome list; the label at
    the home index crosses the threshold for the home name, the label at
    the away index does not. *)
Lemma resolve_outcomes_resolved (outcomes : list string) (hi ai : Z) :
  resolve_outcomes partial_ratio home_team away_team outcomes = (hi, ai) ->
  hi <> -1 -> ai <> -1 ->
  exists (j k : nat) (oh oa : string),
    hi = Z.of_nat j /\ ai = Z.of_nat k /\
    outcomes !! j = Some oh /\ outcomes !! k = Some oa /\
    home_crosses oh = true /\ home_crosses oa = false /\
    crosses partial_ratio away_team oa = true.
Proof.
  rewrite resolve_outcomes_last. intros [= <- <-] Hh Ha.
  destruct (last_index_is_last home_crosses outcomes)
    as [[E _] | (j & oh & Ej & Hj & Hoh & _)]; [contradiction|].
  destruct (last_index_is_last away_only outcomes)
    as [[E _] | (k & oa & Ek & Hk & Hoa & _)]; [contradiction|].
  exists j, k, oh, oa.
  unfold away_only, crosses_away_only in Hoa.
  apply andb_true_iff in Hoa as [Hn Hc]. apply negb_true_iff in Hn.
  repeat split; assumption.
Qed.

(** C3 (amended). Each outcome label is tested with the lower-cased raw
    team name at the threshold of 75, the away name only where the home
    name does not cross.  The index assigned to the home side is the last
    position whose label the home name crosses on, and the index assigned
    to the away side is the last position whose label is crossed by the away
    name and not by the home name; -1 marks a side with no such label. *)
Theorem resolve_outcomes_last_crossing (outcomes : list string) :
  is_last_index (crosses partial_ratio home_team) outcomes
    (fst (resolve_outcomes partial_ratio home_team away_team outcomes)) /\
  is_last_index (crosses_away_only partial_ratio home_team away_team) outcomes
    (snd (resolve_outcomes partial_ratio home_team away_team outcomes)).
Proof.
  rewrite resolve_outcomes_last. split; apply last_index_is_last.
Qed.

End Outcomes.

(** C3, as stated, fails: in a market with the labels Bulls, Magic and
    Bulls by 10+, the first label the home name Bulls crosses on is at
    position 0, and the loop assigns position 2 to the home side. *)
Lemma resolve_outcomes_not_first_crossing :
  first_index (crosses containment_ratio "Bulls") three_way_outcomes = 0 /\
  first_index (crosses containment_ratio "Magic") three_way_outcomes = 1 /\
  resolve_outcomes containment_ratio "Bulls" "Magic" three_way_outcomes = (2, 1) /\
  fst (resolve_outcomes containment_ratio "Bulls" "Magic" three_way_outcomes)
    <> first_index (crosses containment_ratio "Bulls") three_way_outcomes.
Proof. vm_compute. repeat split; discriminate. Qed.

(** ** Market matcher: the loop over the markets *)

Section Markets.

Variable partial_ratio : string -> string -> Z.
Variable float_of_string : string -> option R.
Variables home_team away_team : string.

Lemma market_step_unresolved (market : MarketQuote) :
  resolves partial_ratio home_team away_team market = false ->
  market_step partial_ratio float_of_string home_team away_team market
    = Py.ret None.
Proof.
  unfold resolves, market_step. intros H.
  destruct (is_candidate _ _ _ _); [|reflexivity].
  destruct ((2 <=? length (outcomes market))%nat
            && (2 <=? length (prices market))%nat); [|reflexivity].
  destruct (resolve_outcomes _ _ _ _) as [hi ai]. simpl in H.
  rewrite H. reflexivity.
Qed.

Lemma market_step_resolved (market : MarketQuote) :
  resolves partial_ratio home_team away_team market = true ->
  market_step partial_ratio float_of_string home_team away_team market =
    do home_prob <- price_at float_of_string (prices market)
         (fst (resolve_outcomes partial_ratio home_team away_team (outcomes market)));
    do away_prob <- price_at float_of_string (prices market)
         (snd (resolve_outcomes partial_ratio home_team away_team (outcomes market)));
    Py.ret (Some (home_prob, away_prob)).
Proof.
  unfold resolves, market_step. intros H.
  apply andb_true_iff in H as [H Hidx]. apply andb_true_iff in H as [-> ->].
  destruct (resolve_outcomes _ _ _ _) as [hi ai]. simpl in *.
  rewrite Hidx. reflexivity.
Qed.

Lemma not_candidate_unresolved (market : MarketQuote) :
  is_candidate partial_ratio home_team away_team market = false ->
  resolves partial_ratio home_team away_team market = false.
Proof. unfold resolves. intros ->. reflexivity. Qed.

Lemma scan_markets_skip (pre rest : list MarketQuote) :
  Forall (fun m => resolves partial_ratio home_team away_team m = false) pre ->
  scan_markets partial_ratio float_of_string home_team away_team (pre ++ rest)
    = scan_markets partial_ratio float_of_string home_team away_team rest.
Proof.
  induction 1 as [|m pre Hm _ IH]; [reflexivity|].
  simpl. rewrite (market_step_unresolved m Hm). exact IH.
Qed.

Lemma scan_markets_none (markets : list MarketQuote) :
  Forall (fun m => resolves partial_ratio home_team away_team m = false) markets ->
  scan_markets partial_ratio float_of_string home_team away_team markets
    = Py.ret (0.5, 0.5)%R.
Proof.
  intros H. rewrite <- (app_nil_r markets).
  rewrite (scan_markets_skip markets [] H). reflexivity.
Qed.

(** Reading a price at a position of the list. *)
Lemma price_at_lookup (prices : list price) (j : nat) (p : price) :
  prices !! j = Some p ->
  convertible float_of_string p ->
  price_at float_of_string prices (Z.of_nat j)
    = Py.ret (price_or_default float_of_string p).
Proof.
  intros Hj Hc. unfold price_at, price_or_default.
  rewrite (getitem_lookup prices j p Hj). simpl.
  destruct p as [|x|s]; simpl in *.
  - reflexivity.
  - destruct (Req_dec_T x 0); reflexivity.
  - destruct (String.eqb_spec s EmptyString) as [->|Hs]; simpl; [reflexivity|].
    destruct Hc as [Hc | [x Hx]]; [contradiction|]. rewrite Hx. reflexivity.
Qed.

(** A position past the end of [prices] raises, and the handler of
    [get_polymarket_probs] answers with the neutral pair. *)
Lemma price_at_out_of_range (prices : list price) (j : nat) :
  (length prices <= j)%nat ->
  price_at float_of_string prices (Z.of_nat j) = Py.raise Py.IndexError.
Proof.
  intros Hj. unfold price_at.
  rewrite (getitem_past_end prices j Hj). reflexivity.
Qed.

(** When the loop body returns prices, they are read at the two resolved
    indices, which are distinct positions of the outcome list. *)
Lemma market_step_distinct_indices
    (market : MarketQuote) (home_prob away_prob : R) :
  market_step partial_ratio float_of_string home_team away_team market
    = Py.ret (Some (home_prob, away_prob)) ->
  exists (hi ai : nat) (oh oa : string),
    resolve_outcomes partial_ratio home_team away_team (outcomes market)
      = (Z.of_nat hi, Z.of_nat ai) /\
    hi <> ai /\
    outcomes market !! hi = Some oh /\ crosses partial_ratio home_team oh = true /\
    outcomes market !! ai = Some oa /\ crosses partial_ratio home_team oa = false /\
    price_at float_of_string (prices market) (Z.of_nat hi) = Py.ret home_prob /\
    price_at float_of_string (prices market) (Z.of_nat ai) = Py.ret away_prob.
Proof.
  intros Hstep.
  destruct (resolves partial_ratio home_team away_team market) eqn:Hres.
  2: { rewrite (market_step_unresolved market Hres) in Hstep. discriminate. }
  rewrite (market_step_resolved market Hres) in Hstep.
  unfold resolves in Hres.
  apply andb_true_iff in Hres as [_ Hidx].
  apply andb_true_iff in Hidx as [Hh Ha].
  apply negb_true_iff, Z.eqb_neq in Hh, Ha.
  destruct (resolve_outcomes partial_ratio home_team away_team (outcomes market))
    as [h a] eqn:Hro.
  simpl in *.
  destruct (resolve_outcomes_resolved _ _ _ _ _ _ Hro Hh Ha)
    as (j & k & oh & oa & -> & -> & Hj & Hk & Hoh & Hoa & _).
  exists j, k, oh, oa.
  destruct (price_at float_of_string (prices market) (Z.of_nat j)) as [e|hp];
    [discriminate|].
  destruct (price_at float_of_string (prices market) (Z.of_nat k)) as [e|ap];
    [discriminate|].
  simpl in Hstep. injection Hstep as <- <-.
  repeat split; try assumption; try reflexivity.
  intros ->. congruence.
Qed.

(** A scan that ends without a raise either went through every market
    without returning, or returned in the first market that resolves. *)
Lemma scan_markets_cases (markets : list MarketQuote) (probs : R * R) :
  scan_markets partial_ratio float_of_string home_team away_team markets
    = Py.ret probs ->
  (Forall (fun m => resolves partial_ratio home_team away_team m = false) markets
   /\ probs = (0.5, 0.5)%R) \/
  (exists pre market rest,
     markets = pre ++ market :: rest /\
     Forall (fun m => resolves partial_ratio home_team away_team m = false) pre /\
     market_step partial_ratio float_of_string home_team away_team market
       = Py.ret (Some probs)).
Proof.
  induction markets as [|m markets IH]; simpl; intros H.
  - left. split; [constructor|]. injection H as <-. reflexivity.
  - destruct (market_step partial_ratio float_of_string home_team away_team m)
      as [e|[p|]] eqn:Hm; simpl in H; [discriminate| |].
    + right. exists [], m, markets.
      split; [reflexivity|]. split; [constructor|].
      injection H as <-. exact Hm.
    + assert (resolves partial_ratio home_team away_team m = false) as Hres.
      { destruct (resolves partial_ratio home_team away_team m) eqn:Hres;
          [|reflexivity].
        rewrite (market_step_resolved m Hres) in Hm.
        destruct (price_at _ _ (fst _)) as [e|hp]; [discriminate|].
        destruct (price_at _ _ (snd _)) as [e|ap]; discriminate. }
      destruct (IH H) as [[Hall ->] | (pre & market & rest & -> & Hpre & Hstep)].
      * left. split; [constructor; assumption | reflexivity].
      * right. exists (m :: pre), market, rest.
        repeat split; [constructor; assumption | assumption].
Qed.

(** C10. Whenever the matcher returns prices extracted from a quote (the
    scan ends in a market, not in the default after the loop), the home
    and the away index of that market are distinct positions of its
    outcome list: the label at the home index is one the home name crosses
    on, the label at the away index is not, and the two probabilities are
    the prices read at these two positions. *)
Theorem returned_prices_distinct_indices
    (markets : list MarketQuote) (home_prob away_prob : R) :
  scan_markets partial_ratio float_of_string home_team away_team markets
    = Py.ret (home_prob, away_prob) ->
  (Forall (fun m => resolves partial_ratio home_team away_team m = false) markets
   /\ (home_prob, away_prob) = (0.5, 0.5)%R) \/
  (exists (pre : list MarketQuote) (market : MarketQuote) (rest : list MarketQuote)
          (hi ai : nat) (oh oa : string),
     markets = pre ++ market :: rest /\
     Forall (fun m => resolves partial_ratio home_team away_team m = false) pre /\
     resolve_outcomes partial_ratio home_team away_team (outcomes market)
       = (Z.of_nat hi, Z.of_nat ai) /\
     hi <> ai /\
     outcomes market !! hi = Some oh /\ crosses partial_ratio home_team oh = true /\
     outcomes market !! ai = Some oa /\ crosses partial_ratio home_team oa = false /\
     price_at float_of_string (prices market) (Z.of_nat hi) = Py.ret home_prob /\
     price_at float_of_string (prices market) (Z.of_nat ai) = Py.ret away_prob).
Proof.
  intros Hscan.
  destruct (scan_markets_cases markets _ Hscan)
    as [Hnone | (pre & market & rest & Hsplit & Hpre & Hstep)];
    [left; exact Hnone|].
  right.
  destruct (market_step_distinct_indices market _ _ Hstep)
    as (hi & ai & oh & oa & Hfacts).
  exists pre, market, rest, hi, ai, oh, oa.
  split; [exact Hsplit|]. split; [exact Hpre | exact Hfacts].
Qed.

End Markets.

Section Matching.

Variable partial_ratio : string -> string -> Z.
Variable float_of_string : string -> option R.
Variables home_team away_team : string.

Lemma get_polymarket_probs_scan (markets : list MarketQuote) :
  get_polymarket_probs partial_ratio float_of_string home_team away_team
    (Py.ret markets)
  = match scan_markets partial_ratio float_of_string home_team away_team markets with
    | inr probs => probs
    | inl _ => (0.5, 0.5)%R
    end.
Proof. reflexivity. Qed.

Lemma get_polymarket_probs_skip (pre rest : list MarketQuote) :
  Forall (fun m => resolves partial_ratio home_team away_team m = false) pre ->
  get_polymarket_probs partial_ratio float_of_string home_team away_team
    (Py.ret (pre ++ rest))
  = get_polymarket_probs partial_ratio float_of_string home_team away_team
      (Py.ret rest).
Proof.
  intros H. unfold get_polymarket_probs. simpl.
  rewrite (scan_markets_skip _ _ _ _ pre rest H). reflexivity.
Qed.

Lemma get_polymarket_probs_head (market : MarketQuote)
    (rest : list MarketQuote) (home_prob away_prob : R) :
  market_step partial_ratio float_of_string home_team away_team market
    = Py.ret (Some (home_prob, away_prob)) ->
  get_polymarket_probs partial_ratio float_of_string home_team away_team
    (Py.ret (market :: rest)) = (home_prob, away_prob).
Proof.
  intros H. unfold get_polymarket_probs. simpl. rewrite H. reflexivity.
Qed.

Lemma get_polymarket_probs_first_resolved
    (pre : list MarketQuote) (market : MarketQuote)
    (rest : list MarketQuote) (home_prob away_prob : R) :
  Forall (fun m => resolves partial_ratio home_team away_team m = false) pre ->
  resolves partial_ratio home_team away_team market = true ->
  price_at float_of_string (prices market)
    (fst (resolve_outcomes partial_ratio home_team away_team (outcomes market)))
    = Py.ret home_prob ->
  price_at float_of_string (prices market)
    (snd (resolve_outcomes partial_ratio home_team away_team (outcomes market)))
    = Py.ret away_prob ->
  get_polymarket_probs partial_ratio float_of_string home_team away_team
    (Py.ret (pre ++ market :: rest)) = (home_prob, away_prob).
Proof.
  intros Hpre Hres Hh Ha.
  rewrite (get_polymarket_probs_skip pre (market :: rest) Hpre).
  apply get_polymarket_probs_head.
  rewrite (market_step_resolved _ _ _ _ market Hres), Hh. simpl.
  rewrite Ha. reflexivity.
Qed.

(** A raise while a resolved market is read ends the scan with the neutral
    pair, whatever the markets after it hold. *)
Lemma get_polymarket_probs_raise (pre : list MarketQuote) (market : MarketQuote)
    (rest : list MarketQuote) (e : Py.exn) :
  Forall (fun m => resolves partial_ratio home_team away_team m = false) pre ->
  market_step partial_ratio float_of_string home_team away_team market
    = Py.raise e ->
  get_polymarket_probs partial_ratio float_of_string home_team away_team
    (Py.ret (pre ++ market :: rest)) = (0.5, 0.5)%R.
Proof.
  intros Hpre He.
  rewrite (get_polymarket_probs_skip pre (market :: rest) Hpre).
  unfold get_polymarket_probs. simpl. rewrite He. reflexivity.
Qed.

(** C5. The matcher returns the neutral pair for the empty quote list, and
    for every quote list in which no title, normalised, is matched above 75
    by a variant of the home name and by a variant of the away name; it
    does so too when the request for the quote list raises. *)
Theorem no_candidate_neutral_pair :
  get_polymarket_probs partial_ratio float_of_string home_team away_team
    (Py.ret []) = (0.5, 0.5)%R /\
  (forall markets : list MarketQuote,
     (forall m title, m ∈ markets -> question m = Some title ->
        found partial_ratio (variations home_team) (title_clean (Py.lower title))
        && found partial_ratio (variations away_team) (title_clean (Py.lower title))
        = false) ->
     get_polymarket_probs partial_ratio float_of_string home_team away_team
       (Py.ret markets) = (0.5, 0.5)%R) /\
  (forall e : Py.exn,
     get_polymarket_probs partial_ratio float_of_string home_team away_team
       (Py.raise e) = (0.5, 0.5)%R).
Proof.
  split; [reflexivity|]. split; [|reflexivity].
  intros markets Hnone. unfold get_polymarket_probs. simpl.
  rewrite scan_markets_none; [reflexivity|].
  apply Forall_forall. intros m Hm.
  apply not_candidate_unresolved. unfold is_candidate.
  destruct (question m) as [title|] eqn:Hq; [|reflexivity].
  apply (Hnone m title Hm Hq).
Qed.

(** The result of a scan that comes to a market that resolves: the two
    prices read at its indices, or the neutral pair when reading one of
    them raises. *)
Lemma get_polymarket_probs_resolved
    (pre : list MarketQuote) (market : MarketQuote) (rest : list MarketQuote) :
  Forall (fun m => resolves partial_ratio home_team away_team m = false) pre ->
  resolves partial_ratio home_team away_team market = true ->
  get_polymarket_probs partial_ratio float_of_string home_team away_team
    (Py.ret (pre ++ market :: rest))
  = match
      price_at float_of_string (prices market)
        (fst (resolve_outcomes partial_ratio home_team away_team (outcomes market))),
      price_at float_of_string (prices market)
        (snd (resolve_outcomes partial_ratio home_team away_team (outcomes market)))
    with
    | inr home_prob, inr away_prob => (home_prob, away_prob)
    | _, _ => (0.5, 0.5)%R
    end.
Proof.
  intros Hpre Hres.
  rewrite (get_polymarket_probs_skip pre (market :: rest) Hpre).
  rewrite get_polymarket_probs_scan. simpl.
  rewrite (market_step_resolved _ _ _ _ market Hres).
  destruct (price_at _ _ (fst _)) as [e|hp]; [reflexivity|].
  destruct (price_at _ _ (snd _)) as [e|ap]; reflexivity.
Qed.

(** C4 (amended). The markets are scanned in input order.  A candidate in
    which a side is not resolved is passed over and the markets after it
    are still considered.  The first candidate with at least two outcomes
    and two prices and both sides resolved ends the scan: the result is the
    pair of prices read at its two indices, or the neutral pair when
    reading one of them raises.  When no market is such a candidate the
    result is the neutral pair. *)
Theorem first_resolved_candidate_wins :
  (forall (market : MarketQuote) (rest : list MarketQuote),
     is_candidate partial_ratio home_team away_team market = true ->
     fst (resolve_outcomes partial_ratio home_team away_team (outcomes market)) = -1
     \/ snd (resolve_outcomes partial_ratio home_team away_team (outcomes market)) = -1 ->
     get_polymarket_probs partial_ratio float_of_string home_team away_team
       (Py.ret (market :: rest))
     = get_polymarket_probs partial_ratio float_of_string home_team away_team
         (Py.ret rest)) /\
  (forall (pre : list MarketQuote) (market : MarketQuote)
          (rest : list MarketQuote),
     Forall (fun m => resolves partial_ratio home_team away_team m = false) pre ->
     resolves partial_ratio home_team away_team market = true ->
     get_polymarket_probs partial_ratio float_of_string home_team away_team
       (Py.ret (pre ++ market :: rest))
     = match
         price_at float_of_string (prices market)
           (fst (resolve_outcomes partial_ratio home_team away_team
                   (outcomes market))),
         price_at float_of_string (prices market)
           (snd (resolve_outcomes partial_ratio home_team away_team
                   (outcomes market)))
       with
       | inr home_prob, inr away_prob => (home_prob, away_prob)
       | _, _ => (0.5, 0.5)%R
       end) /\
  (forall markets : list MarketQuote,
     Forall (fun m => resolves partial_ratio home_team away_team m = false) markets ->
     get_polymarket_probs partial_ratio float_of_string home_team away_team
       (Py.ret markets) = (0.5, 0.5)%R).
Proof.
  split; [|split].
  - intros market rest _ Hidx.
    apply (get_polymarket_probs_skip [market] rest).
    constructor; [|constructor].
    unfold resolves.
    destruct Hidx as [-> | ->]; simpl;
      rewrite ?andb_false_r; reflexivity.
  - apply get_polymarket_probs_resolved.
  - intros markets H. unfold get_polymarket_probs. simpl.
    rewrite (scan_markets_none _ _ _ _ markets H). reflexivity.
Qed.

(** C8. In a market with both indices resolved, which no market before it
    kept the loop from reaching, the price at each resolved index is
    returned as that side's probability, with 0.5 in the place of a price
    that is null or false. *)
Theorem resolved_prices_returned
    (pre : list MarketQuote) (market : MarketQuote) (rest : list MarketQuote)
    (hi ai : Z) (home_price away_price : price) :
  Forall (fun m => resolves partial_ratio home_team away_team m = false) pre ->
  is_candidate partial_ratio home_team away_team market = true ->
  (2 <= length (outcomes market))%nat ->
  (2 <= length (prices market))%nat ->
  resolve_outcomes partial_ratio home_team away_team (outcomes market) = (hi, ai) ->
  hi <> -1 -> ai <> -1 ->
  prices market !! Z.to_nat hi = Some home_price ->
  prices market !! Z.to_nat ai = Some away_price ->
  convertible float_of_string home_price ->
  convertible float_of_string away_price ->
  get_polymarket_probs partial_ratio float_of_string home_team away_team
    (Py.ret (pre ++ market :: rest))
  = (price_or_default float_of_string home_price,
     price_or_default float_of_string away_price).
Proof.
  intros Hpre Hcand Hlo Hlp Hro Hh Ha Hph Hpa Hch Hca.
  destruct (resolve_outcomes_resolved _ _ _ _ _ _ Hro Hh Ha)
    as (j & k & _ & _ & -> & -> & _).
  rewrite Nat2Z.id in Hph, Hpa.
  apply get_polymarket_probs_first_resolved; try assumption.
  - unfold resolves. rewrite Hcand, Hro.
    apply Nat.leb_le in Hlo, Hlp. rewrite Hlo, Hlp.
    apply andb_true_iff. split; [reflexivity|].
    apply andb_true_iff. split; apply negb_true_iff, Z.eqb_neq; assumption.
  - rewrite Hro. simpl. apply price_at_lookup; assumption.
  - rewrite Hro. simpl. apply price_at_lookup; assumption.
Qed.

(** Under the invariant of the data model, a resolved index is a position
    of the price list. *)
Lemma resolved_index_has_price (market : MarketQuote) (hi ai : Z) :
  length (outcomes market) = length (prices market) ->
  resolve_outcomes partial_ratio home_team away_team (outcomes market) = (hi, ai) ->
  hi <> -1 -> ai <> -1 ->
  is_Some (prices market !! Z.to_nat hi) /\ is_Some (prices market !! Z.to_nat ai).
Proof.
  intros Hlen Hro Hh Ha.
  destruct (resolve_outcomes_resolved _ _ _ _ _ _ Hro Hh Ha)
    as (j & k & oh & oa & -> & -> & Hj & Hk & _).
  rewrite !Nat2Z.id.
  apply lookup_lt_Some in Hj, Hk. rewrite Hlen in Hj, Hk.
  split; apply lookup_lt_is_Some_2; assumption.
Qed.

End Matching.

(** ** Worked examples *)

(** The string operations on names and titles of the kind the bot sees. *)
Example variations_lakers :
  variations "Los Angeles Lakers" =
    [ "los angeles lakers"; "losangeleslakers";
      "los-angeles-lakers"; "los_angeles_lakers" ].
Proof. reflexivity. Qed.

Example title_clean_question :
  title_clean (Py.lower "Will the Lakers win vs Celtics? ") = "lakers vs celtics?".
Proof. reflexivity. Qed.

Lemma price_or_default_num (float_of_string : string -> option R) (x : R) :
  x <> 0%R -> price_or_default float_of_string (PNum x) = x.
Proof.
  intros Hx. unfold price_or_default. simpl.
  destruct (Req_dec_T x 0); [contradiction | reflexivity].
Qed.

Lemma numbered_market_candidate_unresolved :
  is_candidate containment_ratio "Bulls" "Magic" numbered_market = true /\
  resolve_outcomes containment_ratio "Bulls" "Magic" (outcomes numbered_market)
    = (-1, -1) /\
  resolves containment_ratio "Bulls" "Magic" numbered_market = false.
Proof. repeat split; vm_compute; reflexivity. Qed.

Lemma named_market_resolved :
  is_candidate containment_ratio "Bulls" "Magic" named_market = true /\
  resolve_outcomes containment_ratio "Bulls" "Magic" (outcomes named_market)
    = (0, 1) /\
  resolves containment_ratio "Bulls" "Magic" named_market = true.
Proof. repeat split; vm_compute; reflexivity. Qed.

Lemma unpriced_market_resolved :
  is_candidate containment_ratio "Bulls" "Magic" unpriced_market = true /\
  resolve_outcomes containment_ratio "Bulls" "Magic" (outcomes unpriced_market)
    = (1, 0).
Proof. repeat split; vm_compute; reflexivity. Qed.

Lemma other_market_not_candidate :
  is_candidate containment_ratio "Bulls" "Magic" other_market = false.
Proof. vm_compute; reflexivity. Qed.

Lemma named_market_step :
  market_step containment_ratio no_float_of_string "Bulls" "Magic" named_market
    = Py.ret (Some (0.7, 0.3)%R).
Proof.
  destruct named_market_resolved as (_ & Hro & Hres).
  rewrite (market_step_resolved _ _ _ _ _ Hres), Hro. simpl fst; simpl snd.
  rewrite (price_at_lookup _ (prices named_market) 0 (PNum 0.7) eq_refl I).
  rewrite (price_at_lookup _ (prices named_market) 1 (PNum 0.3) eq_refl I).
  simpl. rewrite !price_or_default_num by lra. reflexivity.
Qed.

Lemma two_markets_scan :
  scan_markets containment_ratio no_float_of_string "Bulls" "Magic"
    [numbered_market; named_market] = Py.ret (0.7, 0.3)%R.
Proof.
  destruct numbered_market_candidate_unresolved as (_ & _ & Hres).
  rewrite (scan_markets_skip _ no_float_of_string _ _
             [numbered_market] [named_market])
    by (constructor; [exact Hres | constructor]).
  simpl. rewrite named_market_step. reflexivity.
Qed.

Lemma returned_prices_distinct_indices_witness :
  (Forall (fun m => resolves containment_ratio "Bulls" "Magic" m = false)
          [numbered_market; named_market]
   /\ (0.7, 0.3)%R = (0.5, 0.5)%R) \/
  (exists (pre : list MarketQuote) (market : MarketQuote) (rest : list MarketQuote)
          (hi ai : nat) (oh oa : string),
     [numbered_market; named_market] = pre ++ market :: rest /\
     Forall (fun m => resolves containment_ratio "Bulls" "Magic" m = false) pre /\
     resolve_outcomes containment_ratio "Bulls" "Magic" (outcomes market)
       = (Z.of_nat hi, Z.of_nat ai) /\
     hi <> ai /\
     outcomes market !! hi = Some oh /\
     crosses containment_ratio "Bulls" oh = true /\
     outcomes market !! ai = Some oa /\
     crosses containment_ratio "Bulls" oa = false /\
     price_at no_float_of_string (prices market) (Z.of_nat hi) = Py.ret 0.7%R /\
     price_at no_float_of_string (prices market) (Z.of_nat ai) = Py.ret 0.3%R).
Proof.
  apply (returned_prices_distinct_indices containment_ratio no_float_of_string
           "Bulls" "Magic" [numbered_market; named_market] 0.7 0.3).
  exact two_markets_scan.
Defined.

Lemma no_candidate_neutral_pair_witness :
  get_polymarket_probs containment_ratio no_float_of_string "Bulls" "Magic"
    (Py.ret [other_market]) = (0.5, 0.5)%R.
Proof.
  apply (proj1 (proj2 (no_candidate_neutral_pair containment_ratio
                         no_float_of_string "Bulls" "Magic"))).
  intros m title Hm Hq.
  apply list_elem_of_singleton in Hm. subst m.
  injection Hq as <-. vm_compute. reflexivity.
Defined.

(** C4, as stated, fails: the first candidate lists its outcomes as 1 and
    2, so neither side is resolved in it, and the matcher goes on to the
    second market and returns its prices, not the neutral pair. *)
Lemma later_market_after_unresolved_candidate :
  is_candidate containment_ratio "Bulls" "Magic" numbered_market = true /\
  resolve_outcomes containment_ratio "Bulls" "Magic" (outcomes numbered_market)
    = (-1, -1) /\
  get_polymarket_probs containment_ratio no_float_of_string "Bulls" "Magic"
    (Py.ret [numbered_market; named_market]) = (0.7, 0.3)%R /\
  get_polymarket_probs containment_ratio no_float_of_string "Bulls" "Magic"
    (Py.ret [numbered_market; named_market]) <> (0.5, 0.5)%R.
Proof.
  destruct numbered_market_candidate_unresolved as (Hc & Hro & Hres).
  assert (get_polymarket_probs containment_ratio no_float_of_string "Bulls" "Magic"
            (Py.ret [numbered_market; named_market]) = (0.7, 0.3)%R) as Hr.
  { rewrite get_polymarket_probs_scan, two_markets_scan. reflexivity. }
  repeat split; try assumption.
  rewrite Hr. intros [= H _]. lra.
Qed.

Lemma first_resolved_candidate_wins_witness :
  get_polymarket_probs containment_ratio no_float_of_string "Bulls" "Magic"
    (Py.ret (numbered_market :: [named_market]))
  = get_polymarket_probs containment_ratio no_float_of_string "Bulls" "Magic"
      (Py.ret [named_market]) /\
  get_polymarket_probs containment_ratio no_float_of_string "Bulls" "Magic"
    (Py.ret ([numbered_market] ++ named_market :: [other_market]))
  = (0.7, 0.3)%R /\
  get_polymarket_probs containment_ratio no_float_of_string "Bulls" "Magic"
    (Py.ret ([numbered_market] ++ three_outcome_market :: [named_market]))
  = (0.5, 0.5)%R.
Proof.
  split; [|split].
  - apply (proj1 (first_resolved_candidate_wins containment_ratio
                    no_float_of_string "Bulls" "Magic")).
    + vm_compute. reflexivity.
    + left. vm_compute. reflexivity.
  - rewrite (proj1 (proj2 (first_resolved_candidate_wins containment_ratio
                             no_float_of_string "Bulls" "Magic"))
               [numbered_market] named_market [other_market]).
    + destruct named_market_resolved as (_ & -> & _). simpl fst; simpl snd.
      rewrite (price_at_lookup _ (prices named_market) 0 (PNum 0.7) eq_refl I).
      rewrite (price_at_lookup _ (prices named_market) 1 (PNum 0.3) eq_refl I).
      simpl. rewrite !price_or_default_num by lra. reflexivity.
    + constructor; [vm_compute; reflexivity | constructor].
    + vm_compute. reflexivity.
  - rewrite (proj1 (proj2 (first_resolved_candidate_wins containment_ratio
                             no_float_of_string "Bulls" "Magic"))
               [numbered_market] three_outcome_market [named_market]).
    + assert (resolve_outcomes containment_ratio "Bulls" "Magic"
                (outcomes three_outcome_market) = (0, 2)) as ->
        by (vm_compute; reflexivity).
      simpl fst; simpl snd.
      rewrite (price_at_lookup _ (prices three_outcome_market) 0 (PNum 0.6)
                 eq_refl I).
      rewrite (price_at_out_of_range _ (prices three_outcome_market) 2)
        by (simpl; lia).
      reflexivity.
    + constructor; [vm_compute; reflexivity | constructor].
    + vm_compute. reflexivity.
Defined.

Lemma resolved_prices_returned_witness :
  get_polymarket_probs containment_ratio no_float_of_string "Bulls" "Magic"
    (Py.ret ([numbered_market; other_market] ++ unpriced_market :: [named_market]))
  = (price_or_default no_float_of_string PNull,
     price_or_default no_float_of_string (PNum 0.4)).
Proof.
  apply (resolved_prices_returned containment_ratio no_float_of_string
           "Bulls" "Magic" [numbered_market; other_market] unpriced_market
           [named_market] 1 0 PNull (PNum 0.4)).
  - repeat constructor; vm_compute; reflexivity.
  - vm_compute; reflexivity.
  - simpl; lia.
  - simpl; lia.
  - vm_compute; reflexivity.
  - lia.
  - lia.
  - reflexivity.
  - reflexivity.
  - exact I.
  - exact I.
Defined.

(** The value of the last example: the missing home price is 0.5. *)
Example unpriced_market_probs :
  get_polymarket_probs containment_ratio no_float_of_string "Bulls" "Magic"
    (Py.ret [numbered_market; other_market; unpriced_market; named_market])
  = (0.5, 0.4)%R.
Proof.
  transitivity (price_or_default no_float_of_string PNull,
                price_or_default no_float_of_string (PNum 0.4)).
  - apply (get_polymarket_probs_first_resolved containment_ratio no_float_of_string
             "Bulls" "Magic" [numbered_market; other_market] unpriced_market
             [named_market]).
    + repeat constructor; vm_compute; reflexivity.
    + vm_compute; reflexivity.
    + apply (price_at_lookup _ (prices unpriced_market) 1 PNull eq_refl I).
    + apply (price_at_lookup _ (prices unpriced_market) 0 (PNum 0.4) eq_refl I).
  - rewrite price_or_default_num by lra. reflexivity.
Qed.

(** ** Report builder and entry point *)

Section ReportFacts.

Variable partial_ratio : string -> string -> Z.
Variable float_of_string : string -> option R.
Variable now : string.
Variables format_pct format_f1 : R -> string.
Variable fetch : nat -> Py.M (list MarketQuote).

(** The report of the empty game list: the title, the date line and an
    empty line. *)
Lemma build_report_nil :
  build_report partial_ratio float_of_string now format_pct format_f1 fetch []
  = report_title +:+ nl +:+ ("Date: " +:+ now) +:+ nl.
Proof. reflexivity. Qed.

Lemma build_report_nil_not_no_games :
  build_report partial_ratio float_of_string now format_pct format_f1 fetch []
  <> no_games_message.
Proof.
  rewrite build_report_nil. unfold no_games_message.
  vm_compute. intros H. congruence.
Qed.

End ReportFacts.

(** * Further properties *)

(** ** Model estimator *)

(** Two teams that are both absent from the rating store, and a team
    paired with itself, get the neutral pair. *)
Theorem model_probability_unknown_teams :
  (forall team_id : Z, model_probability team_id team_id = (0.5, 0.5)%R) /\
  (forall home_team_id away_team_id : Z,
     mock_stats !! home_team_id = None ->
     mock_stats !! away_team_id = None ->
     model_probability home_team_id away_team_id = (0.5, 0.5)%R).
Proof.
  assert (forall r : Rating, model_probability_of r r = (0.5, 0.5)%R) as Hsame.
  { intros r. rewrite model_probability_of_logistic.
    replace (net r - net r)%R with 0%R by lra.
    rewrite logistic_0. f_equal. lra. }
  split.
  - intros team_id. apply Hsame.
  - intros home_team_id away_team_id Hh Ha.
    unfold model_probability, get_team_stats. rewrite Hh, Ha. apply Hsame.
Qed.

Lemma model_probability_unknown_teams_witness :
  model_probability 11 23 = (0.5, 0.5)%R.
Proof.
  apply (proj2 model_probability_unknown_teams); reflexivity.
Defined.

(** ** Edge classifier *)



(** ** Market matcher: which markets count *)

Section Scan.

Variable partial_ratio : string -> string -> Z.
Variable float_of_string : string -> option R.
Variables home_team away_team : string.

(** In a market that resolves, the loop body returns or raises. *)
Lemma market_step_resolved_cases (market : MarketQuote) :
  resolves partial_ratio home_team away_team market = true ->
  (exists e, market_step partial_ratio float_of_string home_team away_team market
             = Py.raise e) \/
  (exists probs, market_step partial_ratio float_of_string home_team away_team market
                 = Py.ret (Some probs)).
Proof.
  intros Hres. rewrite (market_step_resolved _ _ _ _ market Hres).
  destruct (price_at _ _ (fst _)) as [e|hp]; [left; exists e; reflexivity|].
  destruct (price_at _ _ (snd _)) as [e|ap]; [left; exists e; reflexivity|].
  right. exists (hp, ap). reflexivity.
Qed.

Lemma scan_markets_remove (pre rest : list MarketQuote) (market : MarketQuote) :
  market_step partial_ratio float_of_string home_team away_team market
    = Py.ret None ->
  scan_markets partial_ratio float_of_string home_team away_team
    (pre ++ market :: rest)
  = scan_markets partial_ratio float_of_string home_team away_team (pre ++ rest).
Proof.
  intros Hm. induction pre as [|m pre IH]; simpl.
  - rewrite Hm. reflexivity.
  - destruct (market_step partial_ratio float_of_string home_team away_team m)
      as [e|[p|]]; simpl; [reflexivity | reflexivity | exact IH].
Qed.

Lemma scan_markets_stops (pre rest rest' : list MarketQuote) (market : MarketQuote) :
  resolves partial_ratio home_team away_team market = true ->
  scan_markets partial_ratio float_of_string home_team away_team
    (pre ++ market :: rest)
  = scan_markets partial_ratio float_of_string home_team away_team
      (pre ++ market :: rest').
Proof.
  intros Hres. induction pre as [|m pre IH]; simpl.
  - destruct (market_step_resolved_cases market Hres) as [[e ->] | [p ->]];
      reflexivity.
  - destruct (market_step partial_ratio float_of_string home_team away_team m)
      as [e|[p|]]; simpl; [reflexivity | reflexivity | exact IH].
Qed.

(** A market without a question, or with fewer than two outcomes or fewer
    than two prices, has no influence: taking it out of the response,
    wherever it stands, leaves the result as it is. *)
Theorem incomplete_market_ignored
    (pre rest : list MarketQuote) (market : MarketQuote) :
  question market = None \/
  (length (outcomes market) < 2)%nat \/
  (length (prices market) < 2)%nat ->
  get_polymarket_probs partial_ratio float_of_string home_team away_team
    (Py.ret (pre ++ market :: rest))
  = get_polymarket_probs partial_ratio float_of_string home_team away_team
      (Py.ret (pre ++ rest)).
Proof.
  intros H. rewrite !get_polymarket_probs_scan.
  rewrite scan_markets_remove; [reflexivity|].
  apply market_step_unresolved. unfold resolves, is_candidate.
  destruct H as [-> | [H | H]]; [reflexivity | |].
  - apply Nat.leb_gt in H. rewrite H.
    rewrite andb_false_l, andb_false_r. reflexivity.
  - apply Nat.leb_gt in H. rewrite H.
    rewrite andb_false_r, andb_false_r. reflexivity.
Qed.

(** The markets after the first one that resolves are never looked at:
    replacing them by any others leaves the result as it is, whether that
    market made the matcher return or raise. *)
Theorem markets_after_resolved_ignored
    (pre rest rest' : list MarketQuote) (market : MarketQuote) :
  resolves partial_ratio home_team away_team market = true ->
  get_polymarket_probs partial_ratio float_of_string home_team away_team
    (Py.ret (pre ++ market :: rest))
  = get_polymarket_probs partial_ratio float_of_string home_team away_team
      (Py.ret (pre ++ market :: rest')).
Proof.
  intros Hres. rewrite !get_polymarket_probs_scan.
  rewrite (scan_markets_stops pre rest rest' market Hres). reflexivity.
Qed.

(** The two resolved indices of a market that resolves. *)
Lemma resolves_indices (market : MarketQuote) :
  resolves partial_ratio home_team away_team market = true ->
  exists j k : nat,
    resolve_outcomes partial_ratio home_team away_team (outcomes market)
      = (Z.of_nat j, Z.of_nat k).
Proof.
  unfold resolves. intros H.
  apply andb_true_iff in H as [_ H]. apply andb_true_iff in H as [Hh Ha].
  apply negb_true_iff, Z.eqb_neq in Hh, Ha.
  destruct (resolve_outcomes partial_ratio home_team away_team (outcomes market))
    as [hi ai] eqn:Hro. simpl in *.
  destruct (resolve_outcomes_resolved _ _ _ _ _ _ Hro Hh Ha)
    as (j & k & _ & _ & -> & -> & _).
  exists j, k. reflexivity.
Qed.

(** When the first market that resolves has more outcomes than prices and
    a resolved index lies past the end of its prices, the matcher answers
    with the neutral pair for both sides, whatever the price at the other
    index and whatever the markets after it. *)
Theorem index_past_prices_neutral_pair
    (pre rest : list MarketQuote) (market : MarketQuote) (hi ai : Z) :
  Forall (fun m => resolves partial_ratio home_team away_team m = false) pre ->
  resolves partial_ratio home_team away_team market = true ->
  resolve_outcomes partial_ratio home_team away_team (outcomes market) = (hi, ai) ->
  Z.of_nat (length (prices market)) <= hi \/
  Z.of_nat (length (prices market)) <= ai ->
  get_polymarket_probs partial_ratio float_of_string home_team away_team
    (Py.ret (pre ++ market :: rest)) = (0.5, 0.5)%R.
Proof.
  intros Hpre Hres Hro Hout.
  destruct (resolves_indices market Hres) as (j & k & Hjk).
  rewrite Hro in Hjk. injection Hjk as -> ->.
  assert (exists e, market_step partial_ratio float_of_string home_team away_team
                      market = Py.raise e) as [e He].
  { rewrite (market_step_resolved _ _ _ _ market Hres), Hro. simpl fst; simpl snd.
    destruct (price_at float_of_string (prices market) (Z.of_nat j))
      as [e|hp] eqn:Hhp; [exists e; reflexivity|].
    destruct Hout as [Hout | Hout].
    - rewrite price_at_out_of_range in Hhp by lia. discriminate.
    - rewrite price_at_out_of_range by lia. exists Py.IndexError. reflexivity. }
  apply (get_polymarket_probs_raise _ _ _ _ pre market rest e Hpre He).
Qed.

Lemma price_at_unparsable (prices : list price) (j : nat) (p : price) :
  prices !! j = Some p ->
  unparsable float_of_string p ->
  price_at float_of_string prices (Z.of_nat j) = Py.raise Py.ValueError.
Proof.
  intros Hj (s & -> & Hs & Hnone). unfold price_at.
  rewrite (getitem_lookup prices j _ Hj). simpl.
  destruct (String.eqb_spec s EmptyString) as [E|_]; [contradiction|].
  simpl. rewrite Hnone. reflexivity.
Qed.

(** When the price at a resolved index of the first market that resolves
    is a non-empty string that is no number, the matcher answers with the
    neutral pair for both sides. *)
Theorem unparsable_price_neutral_pair
    (pre rest : list MarketQuote) (market : MarketQuote) (hi ai : Z) :
  Forall (fun m => resolves partial_ratio home_team away_team m = false) pre ->
  resolves partial_ratio home_team away_team market = true ->
  resolve_outcomes partial_ratio home_team away_team (outcomes market) = (hi, ai) ->
  (exists p, prices market !! Z.to_nat hi = Some p /\ unparsable float_of_string p) \/
  (exists p, prices market !! Z.to_nat ai = Some p /\ unparsable float_of_string p) ->
  get_polymarket_probs partial_ratio float_of_string home_team away_team
    (Py.ret (pre ++ market :: rest)) = (0.5, 0.5)%R.
Proof.
  intros Hpre Hres Hro Hbad.
  destruct (resolves_indices market Hres) as (j & k & Hjk).
  rewrite Hro in Hjk. injection Hjk as -> ->.
  rewrite !Nat2Z.id in Hbad.
  assert (exists e, market_step partial_ratio float_of_string home_team away_team
                      market = Py.raise e) as [e He].
  { rewrite (market_step_resolved _ _ _ _ market Hres), Hro. simpl fst; simpl snd.
    destruct (price_at float_of_string (prices market) (Z.of_nat j))
      as [e|hp] eqn:Hhp; [exists e; reflexivity|].
    destruct Hbad as [(p & Hp & Hu) | (p & Hp & Hu)].
    - rewrite (price_at_unparsable _ j p Hp Hu) in Hhp. discriminate.
    - rewrite (price_at_unparsable _ k p Hp Hu). exists Py.ValueError. reflexivity. }
  apply (get_polymarket_probs_raise _ _ _ _ pre market rest e Hpre He).
Qed.

Lemma price_at_in_unit (prices : list price) (i : Z) (x : R) :
  Forall (price_in_unit float_of_string) prices ->
  price_at float_of_string prices i = Py.ret x ->
  (0 <= x <= 1)%R.
Proof.
  intros Hall. unfold price_at, Py.getitem. cbv zeta.
  destruct (_ <? 0); [discriminate|].
  destruct (prices !! _) as [p|] eqn:Hp; [|discriminate].
  simpl.
  assert (price_in_unit float_of_string p) as Hunit.
  { rewrite Forall_forall in Hall. apply Hall.
    eapply list_elem_of_lookup_2; eassumption. }
  destruct p as [|y|s]; simpl in *.
  - intros [= <-]. lra.
  - destruct (Req_dec_T y 0); intros [= <-]; lra.
  - destruct (negb _); [|intros [= <-]; lra].
    destruct (float_of_string s) as [y|] eqn:Hy; [|discriminate].
    intros [= <-]. apply Hunit. reflexivity.
Qed.

(** When every price of every market is null or stands for a number in
    [0,1], the two numbers the matcher returns lie in [0,1], for every
    response and every request failure. *)
Theorem get_polymarket_probs_in_unit (response : Py.M (list MarketQuote)) :
  (forall markets, response = Py.ret markets ->
     Forall (fun m => Forall (price_in_unit float_of_string) (prices m)) markets) ->
  let '(home_prob, away_prob) :=
    get_polymarket_probs partial_ratio float_of_string home_team away_team response in
  (0 <= home_prob <= 1 /\ 0 <= away_prob <= 1)%R.
Proof.
  intros Hall.
  destruct response as [e|markets]; [simpl; lra|].
  specialize (Hall markets eq_refl).
  change (inr markets) with (Py.ret markets).
  rewrite get_polymarket_probs_scan.
  destruct (scan_markets partial_ratio float_of_string home_team away_team markets)
    as [e|[hp ap]] eqn:Hscan; [lra|].
  destruct (scan_markets_cases _ _ _ _ markets _ Hscan)
    as [[_ [= -> ->]] | (pre & market & rest & -> & _ & Hstep)]; [lra|].
  destruct (market_step_distinct_indices _ _ _ _ market _ _ Hstep)
    as (hi & ai & _ & _ & _ & _ & _ & _ & _ & _ & Hhp & Hap).
  rewrite Forall_forall in Hall.
  assert (Forall (price_in_unit float_of_string) (prices market)) as Hm.
  { apply Hall. apply elem_of_app. right. apply elem_of_cons. left. reflexivity. }
  split; eapply price_at_in_unit; eassumption.
Qed.

End Scan.

(** ** Market matcher: the two sides *)

Lemma last_index_from_ext {A} (P Q : A -> bool) (i : nat) (l : list A) :
  Forall (fun x => P x = Q x) l ->
  last_index_from P i l = last_index_from Q i l.
Proof.
  intros H. revert i. induction H as [|x l Hx _ IH]; intros i; simpl.
  - reflexivity.
  - rewrite (IH (S i)), Hx. reflexivity.
Qed.

Section Sides.

Variable partial_ratio : string -> string -> Z.
Variable float_of_string : string -> option R.
Variables home_team away_team : string.

(** No outcome label of the list is crossed by both names. *)
Let separate (outcomes : list string) : Prop :=
  Forall (fun o => crosses partial_ratio home_team o
                   && crosses partial_ratio away_team o = false) outcomes.

Lemma is_candidate_swap (market : MarketQuote) :
  is_candidate partial_ratio away_team home_team market
  = is_candidate partial_ratio home_team away_team market.
Proof.
  unfold is_candidate. destruct (question market); [|reflexivity].
  apply andb_comm.
Qed.

Lemma resolve_outcomes_swap (outcomes : list string) :
  separate outcomes ->
  resolve_outcomes partial_ratio away_team home_team outcomes
  = swap_pair (resolve_outcomes partial_ratio home_team away_team outcomes).
Proof.
  intros Hsep. rewrite !resolve_outcomes_last. unfold swap_pair, last_index. simpl.
  f_equal; apply last_index_from_ext; eapply Forall_impl; try exact Hsep;
    intros o Ho; simpl in Ho; unfold crosses_away_only;
    destruct (crosses partial_ratio home_team o);
    destruct (crosses partial_ratio away_team o);
    try reflexivity; discriminate.
Qed.

Lemma resolves_swap (market : MarketQuote) :
  separate (outcomes market) ->
  resolves partial_ratio away_team home_team market
  = resolves partial_ratio home_team away_team market.
Proof.
  intros Hsep. unfold resolves.
  rewrite is_candidate_swap, (resolve_outcomes_swap _ Hsep).
  unfold swap_pair. simpl. f_equal. apply andb_comm.
Qed.

Lemma market_step_swap (market : MarketQuote) :
  separate (outcomes market) ->
  match market_step partial_ratio float_of_string home_team away_team market,
        market_step partial_ratio float_of_string away_team home_team market with
  | inl _, inl _ => True
  | inr None, inr None => True
  | inr (Some p), inr (Some q) => q = swap_pair p
  | _, _ => False
  end.
Proof.
  intros Hsep.
  destruct (resolves partial_ratio home_team away_team market) eqn:Hres.
  - rewrite (market_step_resolved _ _ _ _ market Hres).
    rewrite <- (resolves_swap market Hsep) in Hres.
    rewrite (market_step_resolved _ _ _ _ market Hres).
    rewrite (resolve_outcomes_swap _ Hsep). unfold swap_pair. simpl fst; simpl snd.
    destruct (price_at float_of_string (prices market)
                (fst (resolve_outcomes partial_ratio home_team away_team
                        (outcomes market)))) as [e|hp];
      destruct (price_at float_of_string (prices market)
                  (snd (resolve_outcomes partial_ratio home_team away_team
                          (outcomes market)))) as [e'|ap];
      simpl; auto.
  - rewrite (market_step_unresolved _ _ _ _ market Hres).
    rewrite <- (resolves_swap market Hsep) in Hres.
    rewrite (market_step_unresolved _ _ _ _ market Hres).
    exact I.
Qed.

Lemma scan_markets_swap (markets : list MarketQuote) :
  Forall (fun m => separate (outcomes m)) markets ->
  match scan_markets partial_ratio float_of_string home_team away_team markets,
        scan_markets partial_ratio float_of_string away_team home_team markets with
  | inl _, inl _ => True
  | inr p, inr q => q = swap_pair p
  | _, _ => False
  end.
Proof.
  induction 1 as [|m markets Hm _ IH]; simpl.
  - reflexivity.
  - pose proof (market_step_swap m Hm) as Hstep.
    destruct (market_step partial_ratio float_of_string home_team away_team m)
      as [e|[p|]];
      destruct (market_step partial_ratio float_of_string away_team home_team m)
        as [e'|[q|]];
      simpl; try contradiction; try exact I; try exact Hstep; exact IH.
Qed.

(** When no outcome label is crossed by both team names, asking for the
    two teams in the other order gives the same two probabilities in the
    other order. *)
Theorem get_polymarket_probs_swap_teams (markets : list MarketQuote) :
  Forall (fun m =>
            Forall (fun o => crosses partial_ratio home_team o
                             && crosses partial_ratio away_team o = false)
                   (outcomes m)) markets ->
  get_polymarket_probs partial_ratio float_of_string away_team home_team
    (Py.ret markets)
  = swap_pair (get_polymarket_probs partial_ratio float_of_string
                 home_team away_team (Py.ret markets)).
Proof.
  intros Hsep. rewrite !get_polymarket_probs_scan.
  pose proof (scan_markets_swap markets Hsep) as Hscan.
  destruct (scan_markets partial_ratio float_of_string home_team away_team markets)
    as [e|p];
    destruct (scan_markets partial_ratio float_of_string away_team home_team markets)
      as [e'|q];
    try contradiction; [reflexivity | exact Hscan].
Qed.

(** The home side has priority on a label.  When every outcome label the
    away name crosses on is also crossed by the home name, the away side
    stays unresolved, and the market has no influence on the result. *)
Theorem away_side_shadowed
    (pre rest : list MarketQuote) (market : MarketQuote) :
  Forall (fun o => crosses partial_ratio away_team o = true ->
                   crosses partial_ratio home_team o = true)
         (outcomes market) ->
  snd (resolve_outcomes partial_ratio home_team away_team (outcomes market)) = -1 /\
  get_polymarket_probs partial_ratio float_of_string home_team away_team
    (Py.ret (pre ++ market :: rest))
  = get_polymarket_probs partial_ratio float_of_string home_team away_team
      (Py.ret (pre ++ rest)).
Proof.
  intros Hshadow.
  assert (snd (resolve_outcomes partial_ratio home_team away_team
                 (outcomes market)) = -1) as Hsnd.
  { rewrite resolve_outcomes_last. simpl.
    destruct (last_index_is_last
                (crosses_away_only partial_ratio home_team away_team)
                (outcomes market))
      as [[E _] | (j & o & _ & Hj & Ho & _)]; [exact E|].
    rewrite Forall_forall in Hshadow.
    unfold crosses_away_only in Ho.
    apply andb_true_iff in Ho as [Hn Hc]. apply negb_true_iff in Hn.
    rewrite (Hshadow o (list_elem_of_lookup_2 _ _ _ Hj) Hc) in Hn. discriminate. }
  split; [exact Hsnd|].
  rewrite !get_polymarket_probs_scan.
  rewrite scan_markets_remove; [reflexivity|].
  apply market_step_unresolved. unfold resolves.
  rewrite Hsnd. simpl. rewrite !andb_false_r. reflexivity.
Qed.

End Sides.

(** ** Market matcher: names and their variants *)

Lemma lower_ascii_idem (c : ascii) :
  Py.lower_ascii (Py.lower_ascii c) = Py.lower_ascii c.
Proof. destruct c as [[] [] [] [] [] [] [] []]; reflexivity. Qed.

Lemma lower_idem (s : string) : Py.lower (Py.lower s) = Py.lower s.
Proof.
  induction s as [|c s IH]; simpl; [reflexivity|].
  rewrite lower_ascii_idem, IH. reflexivity.
Qed.

Lemma lower_app (s t : string) :
  Py.lower (String.append s t) = String.append (Py.lower s) (Py.lower t).
Proof.
  induction s as [|c s IH]; simpl; [reflexivity|]. rewrite IH. reflexivity.
Qed.

(** Lower-casing neither makes nor removes a space. *)
Lemma prefix_space_lower (c : ascii) (s s' : string) :
  String.prefix " " (String (Py.lower_ascii c) s) = String.prefix " " (String c s').
Proof.
  destruct c as [[] [] [] [] [] [] [] []]; try reflexivity.
  destruct s, s'; reflexivity.
Qed.

Lemma replace_space_lower (new s : string) :
  Py.lower (Py.replace " " new (Py.lower s)) = Py.lower (Py.replace " " new s).
Proof.
  unfold Py.replace.
  induction s as [|c s IH]; [reflexivity|].
  cbn [Py.lower Py.replace_from String.length Nat.sub].
  rewrite (prefix_space_lower c (Py.lower s) s).
  destruct (String.prefix " " (String c s)).
  - rewrite !lower_app, IH. reflexivity.
  - cbn [Py.lower]. rewrite lower_ascii_idem, IH. reflexivity.
Qed.

Lemma variations_lower (team : string) :
  variations (Py.lower team) = variations team.
Proof.
  unfold variations. rewrite lower_idem, !replace_space_lower. reflexivity.
Qed.

Lemma replace_no_space (new s : string) :
  occurs " " s = false -> Py.replace " " new s = s.
Proof.
  unfold Py.replace.
  induction s as [|c s IH]; [reflexivity|].
  cbn [occurs Py.replace_from]. intros H.
  apply orb_false_iff in H as [Hp Ho].
  rewrite Hp, (IH Ho). reflexivity.
Qed.

Section Names.

Variable partial_ratio : string -> string -> Z.
Variable float_of_string : string -> option R.

(** For a team name without a space the four variants are one string,
    the lower-cased name, and the test on a title is the single test of
    that string. *)
Theorem variations_of_one_word (team title : string) :
  occurs " " team = false ->
  variations team
    = [ Py.lower team; Py.lower team; Py.lower team; Py.lower team ] /\
  found partial_ratio (variations team) title
    = (75 <? partial_ratio (Py.lower team) title).
Proof.
  intros Hns.
  assert (variations team
          = [ Py.lower team; Py.lower team; Py.lower team; Py.lower team ]) as Hv.
  { unfold variations. rewrite !(replace_no_space _ team Hns). reflexivity. }
  split; [exact Hv|].
  rewrite Hv. unfold found. simpl.
  destruct (75 <? partial_ratio (Py.lower team) title); reflexivity.
Qed.

Lemma market_step_lower (home_team away_team : string) (market : MarketQuote) :
  market_step partial_ratio float_of_string
    (Py.lower home_team) (Py.lower away_team) market
  = market_step partial_ratio float_of_string home_team away_team market.
Proof.
  unfold market_step, is_candidate, resolve_outcomes, resolve_step.
  rewrite !variations_lower, !lower_idem. reflexivity.
Qed.

Lemma scan_markets_lower (home_team away_team : string)
    (markets : list MarketQuote) :
  scan_markets partial_ratio float_of_string
    (Py.lower home_team) (Py.lower away_team) markets
  = scan_markets partial_ratio float_of_string home_team away_team markets.
Proof.
  induction markets as [|m markets IH]; simpl; [reflexivity|].
  rewrite market_step_lower, IH. reflexivity.
Qed.

Lemma market_step_same_lower (home_team away_team home_team' away_team' : string)
    (market : MarketQuote) :
  Py.lower home_team = Py.lower home_team' ->
  Py.lower away_team = Py.lower away_team' ->
  market_step partial_ratio float_of_string home_team away_team market
  = market_step partial_ratio float_of_string home_team' away_team' market.
Proof.
  intros Hh Ha.
  rewrite <- (market_step_lower home_team away_team),
          <- (market_step_lower home_team' away_team'), Hh, Ha.
  reflexivity.
Qed.

(** The matcher does not see the case of the letters of the team names:
    two spellings of the home name with the same lower-casing, and two of
    the away name, give the same result on every response. *)
Theorem get_polymarket_probs_case_insensitive
    (home_team away_team home_team' away_team' : string)
    (response : Py.M (list MarketQuote)) :
  Py.lower home_team = Py.lower home_team' ->
  Py.lower away_team = Py.lower away_team' ->
  get_polymarket_probs partial_ratio float_of_string home_team away_team response
  = get_polymarket_probs partial_ratio float_of_string home_team' away_team' response.
Proof.
  intros Hh Ha. unfold get_polymarket_probs.
  destruct response as [e|markets]; simpl; [reflexivity|].
  rewrite <- (scan_markets_lower home_team away_team),
          <- (scan_markets_lower home_team' away_team'), Hh, Ha.
  reflexivity.
Qed.

End Names.

(** ** Report builder *)

Lemma combine_append {A B} (l1 l2 : list A) (k1 k2 : list B) :
  length l1 = length k1 ->
  combine (l1 ++ l2) (k1 ++ k2) = combine l1 k1 ++ combine l2 k2.
Proof.
  revert k1. induction l1 as [|a l1 IH]; intros [|b k1] Hlen;
    try discriminate; simpl; [reflexivity|].
  rewrite IH by (simpl in Hlen; lia). reflexivity.
Qed.

Lemma enumerate_snoc {A} (l : list A) (x : A) :
  Py.enumerate (l ++ [x]) = Py.enumerate l ++ [(length l, x)].
Proof.
  unfold Py.enumerate.
  rewrite length_app, seq_app.
  rewrite combine_append by apply length_seq.
  reflexivity.
Qed.

Lemma fold_left_append_concat {A B} (f : A -> list B) (l : list A) (init : list B) :
  fold_left (fun acc x => acc ++ f x) l init = init ++ concat (map f l).
Proof.
  revert init. induction l as [|x l IH]; intros init; simpl.
  - rewrite app_nil_r. reflexivity.
  - rewrite IH, <- app_assoc. reflexivity.
Qed.

Lemma model_probability_of_same (r : Rating) :
  model_probability_of r r = (0.5, 0.5)%R.
Proof.
  rewrite model_probability_of_logistic.
  replace (net r - net r)%R with 0%R by lra.
  rewrite logistic_0. f_equal. lra.
Qed.

Lemma classify_edge_equal (p : R) : classify_edge p p = (NO_BET, (p - p)%R).
Proof.
  unfold classify_edge.
  destruct (Rge_dec (p - p) 0.07); [lra|].
  destruct (Rge_dec (p - p) 0.03); [lra|]. reflexivity.
Qed.

Section ReportLines.

Variable partial_ratio : string -> string -> Z.
Variable float_of_string : string -> option R.
Variable now : string.
Variables format_pct format_f1 : R -> string.
Variable fetch : nat -> Py.M (list MarketQuote).

Lemma game_lines_length (entry : nat * Game) :
  length (game_lines partial_ratio float_of_string format_pct format_f1 fetch entry)
  = 6%nat.
Proof.
  unfold game_lines. destruct entry as [n game].
  destruct (get_polymarket_probs _ _ _ _ _) as [pm_home pm_away].
  destruct (model_probability _ _) as [model_home model_away].
  destruct (classify_edge _ _) as [edge_label edge_value].
  reflexivity.
Qed.

Lemma concat_game_lines_length (entries : list (nat * Game)) :
  length (concat (map (game_lines partial_ratio float_of_string
                         format_pct format_f1 fetch) entries))
  = (6 * length entries)%nat.
Proof.
  induction entries as [|entry entries IH]; [reflexivity|].
  cbn [map concat]. rewrite length_app, game_lines_length, IH.
  simpl length. lia.
Qed.

(** The report is the join of its lines: three lines of head and six lines
    for each game, the games in input order, the game at position [n]
    with the [n]-th request; a game added at the end adds its six lines at
    the end and changes nothing before them. *)
Theorem build_report_lines (games : list Game) :
  build_report partial_ratio float_of_string now format_pct format_f1 fetch games
  = Py.join nl (report_lines partial_ratio float_of_string now
                  format_pct format_f1 fetch games) /\
  length (report_lines partial_ratio float_of_string now
            format_pct format_f1 fetch games)
  = (3 + 6 * length games)%nat /\
  (forall game : Game,
     report_lines partial_ratio float_of_string now format_pct format_f1 fetch
       (games ++ [game])
     = report_lines partial_ratio float_of_string now format_pct format_f1 fetch games
       ++ game_lines partial_ratio float_of_string format_pct format_f1 fetch
            (length games, game)).
Proof.
  split; [|split].
  - unfold build_report, report_lines.
    rewrite fold_left_append_concat. reflexivity.
  - unfold report_lines, Py.enumerate.
    rewrite length_app, concat_game_lines_length, length_combine, length_seq.
    simpl length. lia.
  - intros game. unfold report_lines.
    rewrite enumerate_snoc, map_app, concat_app. cbn [map concat].
    rewrite app_nil_r, app_assoc. reflexivity.
Qed.

Lemma build_report_head (games : list Game) :
  exists body : string,
    build_report partial_ratio float_of_string now format_pct format_f1 fetch games
    = report_title +:+ nl +:+ ("Date: " +:+ now) +:+ nl +:+ body.
Proof.
  unfold build_report. rewrite fold_left_append_concat.
  set (rest := concat _).
  exists (Py.join nl ("" :: rest)). reflexivity.
Qed.

(** Every report, of whatever game list, begins with the title line and
    the date line, and no report is the no-games message: [main] sends the
    no-games message exactly when the game list is empty. *)
Theorem no_games_message_iff_empty (games : list Game) :
  (exists body : string,
     build_report partial_ratio float_of_string now format_pct format_f1 fetch games
     = report_title +:+ nl +:+ ("Date: " +:+ now) +:+ nl +:+ body) /\
  build_report partial_ratio float_of_string now format_pct format_f1 fetch games
    <> no_games_message /\
  (main partial_ratio float_of_string now format_pct format_f1 fetch games
   = no_games_message <-> games = []).
Proof.
  assert (build_report partial_ratio float_of_string now format_pct format_f1
            fetch games <> no_games_message) as Hne.
  { destruct (build_report_head games) as [body ->].
    unfold no_games_message. vm_compute. intros H. congruence. }
  split; [apply build_report_head|]. split; [exact Hne|].
  split.
  - destruct games as [|game games]; [reflexivity|].
    intros H. exfalso. apply Hne. exact H.
  - intros ->. reflexivity.
Qed.

(** A game whose two teams are absent from the rating store and for which
    the matcher answers with the neutral pair gets the block of a NO BET
    with edge 0: market and model at one half, net ratings 0. *)
Theorem game_lines_all_fallbacks (n : nat) (game : Game) :
  mock_stats !! home_team_id game = None ->
  mock_stats !! away_team_id game = None ->
  get_polymarket_probs partial_ratio float_of_string
    (home_team game) (away_team game) (fetch n) = (0.5, 0.5)%R ->
  game_lines partial_ratio float_of_string format_pct format_f1 fetch (n, game)
  = [ label_emoji NO_BET +:+ " <b>" +:+ home_team game +:+ " vs "
        +:+ away_team game +:+ "</b>";
      "Market: " +:+ format_pct 0.5%R +:+ " vs " +:+ format_pct 0.5%R;
      "Model: " +:+ format_pct 0.5%R +:+ " vs " +:+ format_pct 0.5%R;
      "Edge: " +:+ format_pct 0%R +:+ " (" +:+ "NO BET" +:+ ")";
      "Reason: " +:+ home_team game +:+ " Net Rating: " +:+ format_f1 0%R +:+ ", "
        +:+ away_team game +:+ " Net Rating: " +:+ format_f1 0%R;
      "" ].
Proof.
  intros Hh Ha Hpm. unfold game_lines. rewrite Hpm.
  unfold model_probability, get_team_stats. rewrite Hh, Ha.
  rewrite model_probability_of_same, classify_edge_equal.
  replace (0.5 - 0.5)%R with 0%R by lra.
  replace (off_rating default_stats - def_rating default_stats)%R with 0%R
    by (simpl; lra).
  reflexivity.
Qed.

End ReportLines.

(** ** Worked examples of the further properties *)

Lemma incomplete_market_ignored_witness :
  get_polymarket_probs containment_ratio no_float_of_string "Bulls" "Magic"
    (Py.ret ([numbered_market] ++ untitled_market :: [named_market]))
  = get_polymarket_probs containment_ratio no_float_of_string "Bulls" "Magic"
      (Py.ret ([numbered_market] ++ [named_market])).
Proof.
  apply (incomplete_market_ignored containment_ratio no_float_of_string
           "Bulls" "Magic" [numbered_market] [named_market] untitled_market).
  left. reflexivity.
Defined.

Lemma markets_after_resolved_ignored_witness :
  get_polymarket_probs containment_ratio no_float_of_string "Bulls" "Magic"
    (Py.ret ([numbered_market] ++ named_market :: [unpriced_market]))
  = get_polymarket_probs containment_ratio no_float_of_string "Bulls" "Magic"
      (Py.ret ([numbered_market] ++ named_market :: [])).
Proof.
  apply (markets_after_resolved_ignored containment_ratio no_float_of_string
           "Bulls" "Magic" [numbered_market] [unpriced_market] [] named_market).
  vm_compute. reflexivity.
Defined.

Lemma index_past_prices_neutral_pair_witness :
  get_polymarket_probs containment_ratio no_float_of_string "Bulls" "Magic"
    (Py.ret ([other_market] ++ three_outcome_market :: [named_market]))
  = (0.5, 0.5)%R.
Proof.
  apply (index_past_prices_neutral_pair containment_ratio no_float_of_string
           "Bulls" "Magic" [other_market] [named_market] three_outcome_market 0 2).
  - constructor; [vm_compute; reflexivity | constructor].
  - vm_compute. reflexivity.
  - vm_compute. reflexivity.
  - right. simpl. lia.
Defined.

Lemma unparsable_price_neutral_pair_witness :
  get_polymarket_probs containment_ratio no_float_of_string "Bulls" "Magic"
    (Py.ret ([] ++ text_price_market :: [named_market]))
  = (0.5, 0.5)%R.
Proof.
  apply (unparsable_price_neutral_pair containment_ratio no_float_of_string
           "Bulls" "Magic" [] [named_market] text_price_market 0 1).
  - constructor.
  - vm_compute. reflexivity.
  - vm_compute. reflexivity.
  - left. exists (PStr "n/a"). split; [reflexivity|].
    exists "n/a". repeat split. discriminate.
Defined.

Lemma get_polymarket_probs_in_unit_witness :
  let '(home_prob, away_prob) :=
    get_polymarket_probs containment_ratio no_float_of_string "Bulls" "Magic"
      (Py.ret [numbered_market; named_market]) in
  (0 <= home_prob <= 1 /\ 0 <= away_prob <= 1)%R.
Proof.
  apply (get_polymarket_probs_in_unit containment_ratio no_float_of_string
           "Bulls" "Magic" (Py.ret [numbered_market; named_market])).
  intros markets [= <-].
  repeat constructor; simpl; lra.
Defined.

Lemma get_polymarket_probs_swap_teams_witness :
  get_polymarket_probs containment_ratio no_float_of_string "Magic" "Bulls"
    (Py.ret [numbered_market; named_market])
  = swap_pair (get_polymarket_probs containment_ratio no_float_of_string
                 "Bulls" "Magic" (Py.ret [numbered_market; named_market])).
Proof.
  apply (get_polymarket_probs_swap_teams containment_ratio no_float_of_string
           "Bulls" "Magic" [numbered_market; named_market]).
  repeat constructor; vm_compute; reflexivity.
Defined.

Lemma away_side_shadowed_witness :
  snd (resolve_outcomes containment_ratio "Kings B" "Kings"
         (outcomes reserve_market)) = -1 /\
  get_polymarket_probs containment_ratio no_float_of_string "Kings B" "Kings"
    (Py.ret ([] ++ reserve_market :: []))
  = get_polymarket_probs containment_ratio no_float_of_string "Kings B" "Kings"
      (Py.ret ([] ++ [])).
Proof.
  apply (away_side_shadowed containment_ratio no_float_of_string
           "Kings B" "Kings" [] [] reserve_market).
  repeat constructor; intros _; vm_compute; reflexivity.
Defined.

Lemma variations_of_one_word_witness :
  variations "Lakers" = [ "lakers"; "lakers"; "lakers"; "lakers" ] /\
  found containment_ratio (variations "Lakers") "lakers vs celtics"
    = (75 <? containment_ratio "lakers" "lakers vs celtics").
Proof.
  apply (variations_of_one_word containment_ratio "Lakers" "lakers vs celtics").
  reflexivity.
Defined.

Lemma get_polymarket_probs_case_insensitive_witness :
  get_polymarket_probs containment_ratio no_float_of_string "BULLS" "magic"
    (Py.ret [numbered_market; named_market])
  = get_polymarket_probs containment_ratio no_float_of_string "Bulls" "Magic"
      (Py.ret [numbered_market; named_market]).
Proof.
  apply (get_polymarket_probs_case_insensitive containment_ratio no_float_of_string
           "BULLS" "magic" "Bulls" "Magic"); reflexivity.
Defined.

Lemma game_lines_all_fallbacks_witness :
  let game := {| game_id := "3"; date := "2026-01-15";
                 home_team := "Golden State Warriors"; away_team := "Phoenix Suns";
                 home_team_id := 11; away_team_id := 23 |} in
  game_lines containment_ratio no_float_of_string
    (fun _ => "50.0%") (fun _ => "0.0") (fun _ => Py.raise Py.RequestError)
    (2%nat, game)
  = [ label_emoji NO_BET +:+ " <b>Golden State Warriors vs Phoenix Suns</b>";
      "Market: 50.0% vs 50.0%";
      "Model: 50.0% vs 50.0%";
      "Edge: 50.0% (NO BET)";
      "Reason: Golden State Warriors Net Rating: 0.0, Phoenix Suns Net Rating: 0.0";
      "" ].
Proof.
  intros game.
  apply (game_lines_all_fallbacks containment_ratio no_float_of_string
           (fun _ => "50.0%") (fun _ => "0.0") (fun _ => Py.raise Py.RequestError)
           2%nat game); reflexivity.
Defined.

(** ** A price of zero *)

Section ZeroPrice.

Variable float_of_string : string -> option R.

(** A price that is the number 0 counts as missing and is read as 0.5,
    while a price that is a non-empty string is read as the number it
    spells, 0 included. *)
Theorem price_zero_read_as_default (prices : list price) (j : nat) :
  (prices !! j = Some (PNum 0) ->
   price_at float_of_string prices (Z.of_nat j) = Py.ret 0.5%R) /\
  (forall (s : string) (x : R),
     prices !! j = Some (PStr s) -> s <> EmptyString ->
     float_of_string s = Some x ->
     price_at float_of_string prices (Z.of_nat j) = Py.ret x).
Proof.
  split.
  - intros Hj. unfold price_at. rewrite (getitem_lookup prices j _ Hj). simpl.
    destruct (Req_dec_T 0 0) as [_|Hne]; [reflexivity | contradiction].
  - intros s x Hj Hs Hx. unfold price_at.
    rewrite (getitem_lookup prices j _ Hj). simpl.
    destruct (String.eqb_spec s EmptyString) as [E|_]; [contradiction|].
    simpl. rewrite Hx. reflexivity.
Qed.

End ZeroPrice.

Lemma price_zero_read_as_default_witness :
  price_at (fun _ => Some 0%R) [PNum 0; PStr "0"] (Z.of_nat 0) = Py.ret 0.5%R /\
  price_at (fun _ => Some 0%R) [PNum 0; PStr "0"] (Z.of_nat 1) = Py.ret 0%R.
Proof.
  split.
  - apply (proj1 (price_zero_read_as_default (fun _ => Some 0%R)
                    [PNum 0; PStr "0"] 0)).
    reflexivity.
  - apply (proj2 (price_zero_read_as_default (fun _ => Some 0%R)
                    [PNum 0; PStr "0"] 1) "0" 0%R).
    + reflexivity.
    + discriminate.
    + reflexivity.
Defined.

(** ** The report of a game list and the no-games message *)

Lemma string_length_append (s t : string) :
  String.length (s +:+ t) = (String.length s + String.length t)%nat.
Proof.
  induction s as [|c s IH]; [reflexivity|].
  change (S (String.length (s +:+ t)) = S (String.length s + String.length t)).
  rewrite IH. reflexivity.
Qed.

Lemma string_append_assoc (s t u : string) :
  (s +:+ t) +:+ u = s +:+ (t +:+ u).
Proof.
  induction s as [|c s IH]; [reflexivity|].
  change (String c ((s +:+ t) +:+ u) = String c (s +:+ (t +:+ u))).
  rewrite IH. reflexivity.
Qed.

Lemma join_append (sep : string) (lines more : list string) :
  lines <> [] -> more <> [] ->
  Py.join sep (lines ++ more)
  = Py.join sep lines +:+ sep +:+ Py.join sep more.
Proof.
  intros Hl Hm. induction lines as [|l lines IH]; [contradiction|].
  destruct lines as [|l' lines].
  - destruct more as [|m more]; [contradiction|]. reflexivity.
  - change (Py.join sep ((l :: l' :: lines) ++ more))
      with (l +:+ sep +:+ Py.join sep ((l' :: lines) ++ more)).
    rewrite IH by discriminate.
    change (Py.join sep (l :: l' :: lines))
      with (l +:+ sep +:+ Py.join sep (l' :: lines)).
    rewrite !string_append_assoc. reflexivity.
Qed.

Section NoGames.

Variable partial_ratio : string -> string -> Z.
Variable float_of_string : string -> option R.
Variable now : string.
Variables format_pct format_f1 : R -> string.
Variable fetch : nat -> Py.M (list MarketQuote).

(** The six lines of a game. *)
Lemma game_lines_shape (n : nat) (game : Game) :
  exists (edge_label : label)
         (pm_home pm_away model_home model_away edge home_net away_net : R),
    game_lines partial_ratio float_of_string format_pct format_f1 fetch (n, game)
    = [ label_emoji edge_label +:+ " <b>" +:+ home_team game +:+ " vs "
          +:+ away_team game +:+ "</b>";
        "Market: " +:+ format_pct pm_home +:+ " vs " +:+ format_pct pm_away;
        "Model: " +:+ format_pct model_home +:+ " vs " +:+ format_pct model_away;
        "Edge: " +:+ format_pct edge +:+ " (" +:+ label_text edge_label +:+ ")";
        "Reason: " +:+ home_team game +:+ " Net Rating: "
          +:+ format_f1 home_net +:+ ", "
          +:+ away_team game +:+ " Net Rating: " +:+ format_f1 away_net;
        "" ].
Proof.
  unfold game_lines.
  destruct (get_polymarket_probs _ _ _ _ _) as [pm_home pm_away].
  destruct (model_probability _ _) as [model_home model_away].
  destruct (classify_edge _ _) as [edge_label edge].
  eexists edge_label, pm_home, pm_away, model_home, model_away, edge, _, _.
  reflexivity.
Qed.

Lemma build_report_longer (games : list Game) :
  games <> [] ->
  (String.length (build_report partial_ratio float_of_string now
                    format_pct format_f1 fetch [])
   < String.length (build_report partial_ratio float_of_string now
                      format_pct format_f1 fetch games))%nat.
Proof.
  intros Hne. unfold build_report. rewrite !fold_left_append_concat.
  set (head := [report_title; "Date: " +:+ now; ""]).
  cbn [Py.enumerate length seq combine map concat]. rewrite app_nil_r.
  rewrite join_append; [| discriminate |].
  - rewrite !string_length_append. simpl String.length. lia.
  - destruct games as [|game games]; [contradiction|].
    destruct (game_lines_shape 0 game) as (l & a & b & c & d & e & hn & an & Hg).
    unfold Py.enumerate. cbn [length seq combine map concat].
    rewrite Hg. discriminate.
Qed.

(** C9. On the empty game list [main] does not call [build_report]: it
    sends the fixed no-games message, and no report, of whatever game
    list, is that message.  On every other game list, the list
    [get_today_games] returns among them, it sends the report built from
    the list: the join of the three lines of the head and, for each game
    in input order, its six lines (team names, market, model, edge with
    its label, net ratings, blank), a text longer than the report of the
    empty list. *)
Theorem empty_game_list_no_games :
  main partial_ratio float_of_string now format_pct format_f1 fetch []
    = no_games_message /\
  (forall games : list Game,
     build_report partial_ratio float_of_string now format_pct format_f1 fetch games
     <> no_games_message) /\
  (forall games : list Game, games <> [] ->
     main partial_ratio float_of_string now format_pct format_f1 fetch games
     = build_report partial_ratio float_of_string now format_pct format_f1 fetch games
     /\
     build_report partial_ratio float_of_string now format_pct format_f1 fetch games
     = Py.join nl
         ([ report_title; "Date: " +:+ now; "" ]
          ++ concat (map (game_lines partial_ratio float_of_string
                            format_pct format_f1 fetch)
                         (Py.enumerate games))) /\
     length (concat (map (game_lines partial_ratio float_of_string
                            format_pct format_f1 fetch)
                         (Py.enumerate games)))
     = (6 * length games)%nat /\
     (String.length (build_report partial_ratio float_of_string now
                       format_pct format_f1 fetch [])
      < String.length (build_report partial_ratio float_of_string now
                         format_pct format_f1 fetch games))%nat) /\
  (forall (n : nat) (game : Game),
     exists (edge_label : label)
            (pm_home pm_away model_home model_away edge home_net away_net : R),
       game_lines partial_ratio float_of_string format_pct format_f1 fetch (n, game)
       = [ label_emoji edge_label +:+ " <b>" +:+ home_team game +:+ " vs "
             +:+ away_team game +:+ "</b>";
           "Market: " +:+ format_pct pm_home +:+ " vs " +:+ format_pct pm_away;
           "Model: " +:+ format_pct model_home +:+ " vs "
             +:+ format_pct model_away;
           "Edge: " +:+ format_pct edge +:+ " (" +:+ label_text edge_label +:+ ")";
           "Reason: " +:+ home_team game +:+ " Net Rating: "
             +:+ format_f1 home_net +:+ ", "
             +:+ away_team game +:+ " Net Rating: " +:+ format_f1 away_net;
           "" ]) /\
  (forall today : string,
     main partial_ratio float_of_string now format_pct format_f1 fetch
       (get_today_games today)
     = build_report partial_ratio float_of_string now format_pct format_f1 fetch
         (get_today_games today)).
Proof.
  split; [reflexivity|]. split; [|split; [|split]].
  - intros games.
    destruct (build_report_head partial_ratio float_of_string now
                format_pct format_f1 fetch games) as [body ->].
    unfold no_games_message. vm_compute. intros H. congruence.
  - intros games Hne. split; [|split; [|split]].
    + destruct games as [|game games]; [contradiction | reflexivity].
    + unfold build_report. rewrite fold_left_append_concat. reflexivity.
    + rewrite concat_game_lines_length. unfold Py.enumerate.
      rewrite length_combine, length_seq. lia.
    + apply build_report_longer, Hne.
  - apply game_lines_shape.
  - reflexivity.
Qed.

End NoGames.

Lemma empty_game_list_no_games_witness :
  let games := get_today_games "2026-01-15" in
  let report :=
    build_report containment_ratio no_float_of_string "2026-01-15 09:00:00 UTC"
      (fun _ => "50.0%") (fun _ => "0.0") (fun _ => Py.raise Py.RequestError) in
  main containment_ratio no_float_of_string "2026-01-15 09:00:00 UTC"
    (fun _ => "50.0%") (fun _ => "0.0") (fun _ => Py.raise Py.RequestError) games
  = report games /\
  length (concat (map (game_lines containment_ratio no_float_of_string
                         (fun _ => "50.0%") (fun _ => "0.0")
                         (fun _ => Py.raise Py.RequestError))
                      (Py.enumerate games))) = 18%nat /\
  (String.length (report []) < String.length (report games))%nat.
Proof.
  intros games report.
  destruct (proj1 (proj2 (proj2 (empty_game_list_no_games containment_ratio
              no_float_of_string "2026-01-15 09:00:00 UTC"
              (fun _ => "50.0%") (fun _ => "0.0")
              (fun _ => Py.raise Py.RequestError)))) games)
    as (Hmain & _ & Hlen & Hlonger).
  - discriminate.
  - split; [exact Hmain|]. split; [exact Hlen | exact Hlonger].
Defined.
